(** * Article Tracker: a shallow embedding of [main.py] and its specification

    The program records, per calendar date and per "diary", a number of
    articles; it loads and saves the records from a flat text file and
    computes descriptive statistics over them.

    Modelling conventions.
    - A Python [str] is a [list ascii]; a character is its code point,
      restricted to the range 0..255.
    - A Python [int] is a [Z]; the limit that Python puts on the number of
      digits of an integer converted from or to text is not modelled.
    - A Python [dict] is an association list in insertion order with pairwise
      distinct keys: iteration order is observable in the program (order of
      the saved lines, tie-break of [Counter.most_common], order of the week
      summary).
    - A Python [float] holding the quotient or product of integers is the
      exact rational ([Q]); the square root taken by [statistics.stdev] is
      the real square root ([R]).  Rounding to binary64 is not modelled.
    - [datetime.date] is a record of year, month and day with the proleptic
      Gregorian algorithms of the [datetime] module, including its range
      0001-01-01 .. 9999-12-31.  [strftime] writes the year as the C library
      of Linux does, without leading zeros; [str] of a date writes four
      digits.
    - The module-level variable [historical_data], the backing file, the
      clock and the dialogs shown to the user form an explicit [World] that
      is threaded through a state-and-exception monad. *)

From Stdlib Require Import String Ascii ZArith List Bool Lia.
From Stdlib Require Import QArith Qround Qreals Reals Psatz Permutation Sorted.
Import ListNotations.

Local Open Scope Z_scope.

(* ================================================================== *)
(** * Part I. The embedding *)
(* ================================================================== *)

(** ** Python strings *)

Definition str := list ascii.

Definition code (c : ascii) : Z := Z.of_N (N_of_ascii c).

Definition lit (s : string) : str := list_ascii_of_string s.

Arguments lit s%_string.

Fixpoint str_eqb (a b : str) : bool :=
  match a, b with
  | [], [] => true
  | x :: a', y :: b' => Ascii.eqb x y && str_eqb a' b'
  | _, _ => false
  end.

(** [str.isspace] on one character, for code points below 256. *)
Definition isspace (c : ascii) : bool :=
  let n := code c in
  ((9 <=? n) && (n <=? 13)) || ((28 <=? n) && (n <=? 32))
  || (n =? 133) || (n =? 160).

Definition isdigit (c : ascii) : bool :=
  (48 <=? code c) && (code c <=? 57).

Definition digit_val (c : ascii) : Z := code c - 48.

Definition digit_char (d : Z) : ascii := ascii_of_N (Z.to_N (48 + d)).

(** Whitespace as [int] skips it around a number: the ASCII whitespace of C
    and the whitespace above code point 127, but not the separators 28..31
    that [str.isspace] accepts. *)
Definition int_isspace (c : ascii) : bool :=
  let n := code c in
  ((9 <=? n) && (n <=? 13)) || (n =? 32) || (n =? 133) || (n =? 160).

Fixpoint lstrip_by (space : ascii -> bool) (s : str) : str :=
  match s with
  | [] => []
  | c :: r => if space c then lstrip_by space r else s
  end.

Definition rstrip_by (space : ascii -> bool) (s : str) : str :=
  rev (lstrip_by space (rev s)).

Definition strip_by (space : ascii -> bool) (s : str) : str :=
  rstrip_by space (lstrip_by space s).

(** [s.strip()] *)
Definition strip (s : str) : str := strip_by isspace s.

(** [s.split(sep)] for a one-character separator: never the empty list. *)
Fixpoint split (sep : ascii) (s : str) : list str :=
  match s with
  | [] => [[]]
  | c :: r =>
      if Ascii.eqb c sep then [] :: split sep r
      else match split sep r with
           | f :: fs => (c :: f) :: fs
           | [] => [[c]]
           end
  end.

Definition comma : ascii := ","%char.
Definition newline : ascii := "010"%char.
Definition carriage_return : ascii := "013"%char.

(** ** Python integers as text *)

(** The digits after the first one: [digit ("_"? digit)*]. *)
Fixpoint int_digits (acc : Z) (s : str) : option Z :=
  match s with
  | [] => Some acc
  | c :: r =>
      if isdigit c then int_digits (acc * 10 + digit_val c) r
      else if Ascii.eqb c "_"%char then
        match r with
        | d :: r' =>
            if isdigit d then int_digits (acc * 10 + digit_val d) r' else None
        | [] => None
        end
      else None
  end.

Definition int_unsigned (s : str) : option Z :=
  match s with
  | c :: r => if isdigit c then int_digits (digit_val c) r else None
  | [] => None
  end.

(** [int(s)]: surrounding whitespace, an optional sign, decimal digits with
    single underscores between them.  [None] stands for [ValueError]. *)
Definition py_int (s : str) : option Z :=
  match strip_by int_isspace s with
  | c :: r =>
      if Ascii.eqb c "-"%char then option_map Z.opp (int_unsigned r)
      else if Ascii.eqb c "+"%char then int_unsigned r
      else int_unsigned (c :: r)
  | [] => None
  end.

Fixpoint digits_fuel (fuel : nat) (n : Z) (acc : str) : str :=
  match fuel with
  | O => acc
  | S f =>
      let acc' := digit_char (n mod 10) :: acc in
      if n <? 10 then acc' else digits_fuel f (n / 10) acc'
  end.

Definition str_of_nonneg (n : Z) : str :=
  digits_fuel (S (Z.to_nat (Z.log2 n))) n [].

(** [str(n)], also what an f-string prints for an [int]. *)
Definition py_str_int (n : Z) : str :=
  if n <? 0 then "-"%char :: str_of_nonneg (- n) else str_of_nonneg n.

(** [%0<width>d] for a non-negative number. *)
Definition zero_pad (width : nat) (n : Z) : str :=
  let s := str_of_nonneg n in
  repeat "0"%char (width - length s) ++ s.

(** ** [datetime.date] *)

Record date := mkdate { year : Z; month : Z; day : Z }.

Definition date_eqb (a b : date) : bool :=
  (year a =? year b) && (month a =? month b) && (day a =? day b).

Definition MINYEAR : Z := 1.
Definition MAXYEAR : Z := 9999.

Definition is_leap (y : Z) : bool :=
  (y mod 4 =? 0) && (negb (y mod 100 =? 0) || (y mod 400 =? 0)).

(** The table [_DAYS_IN_MONTH], index 0 unused. *)
Definition DAYS_IN_MONTH : list Z :=
  [-1; 31; 28; 31; 30; 31; 30; 31; 31; 30; 31; 30; 31].

(** The table [_DAYS_BEFORE_MONTH], index 0 unused. *)
Definition DAYS_BEFORE_MONTH : list Z :=
  [-1; 0; 31; 59; 90; 120; 151; 181; 212; 243; 273; 304; 334].

Definition table (t : list Z) (i : Z) : Z := nth (Z.to_nat i) t 0.

Definition days_before_year (y : Z) : Z :=
  let y' := y - 1 in y' * 365 + y' / 4 - y' / 100 + y' / 400.

Definition days_in_month (y m : Z) : Z :=
  if (m =? 2) && is_leap y then 29 else table DAYS_IN_MONTH m.

Definition days_before_month (y m : Z) : Z :=
  table DAYS_BEFORE_MONTH m + (if (2 <? m) && is_leap y then 1 else 0).

Definition ymd2ord (y m d : Z) : Z :=
  days_before_year y + days_before_month y m + d.

Definition DI400Y : Z := 146097.
Definition DI100Y : Z := 36524.
Definition DI4Y : Z := 1461.

(** [_ord2ymd]: the date whose proleptic Gregorian ordinal is [n]. *)
Definition ord2ymd (n : Z) : date :=
  let n := n - 1 in
  let n400 := n / DI400Y in
  let n := n mod DI400Y in
  let y := n400 * 400 + 1 in
  let n100 := n / DI100Y in
  let n := n mod DI100Y in
  let n4 := n / DI4Y in
  let n := n mod DI4Y in
  let n1 := n / 365 in
  let n := n mod 365 in
  let y := y + n100 * 100 + n4 * 4 + n1 in
  if (n1 =? 4) || (n100 =? 4) then mkdate (y - 1) 12 31
  else
    let leapyear := (n1 =? 3) && (negb (n4 =? 24) || (n100 =? 3)) in
    let m := Z.shiftr (n + 50) 5 in
    let preceding :=
      table DAYS_BEFORE_MONTH m + (if (2 <? m) && leapyear then 1 else 0) in
    if n <? preceding then
      let m := m - 1 in
      let preceding :=
        preceding
        - (table DAYS_IN_MONTH m + (if (m =? 2) && leapyear then 1 else 0)) in
      mkdate y m (n - preceding + 1)
    else mkdate y m (n - preceding + 1).

(** The checks of the [date(year, month, day)] constructor. *)
Definition date_ok (d : date) : bool :=
  (MINYEAR <=? year d) && (year d <=? MAXYEAR)
  && (1 <=? month d) && (month d <=? 12)
  && (1 <=? day d) && (day d <=? days_in_month (year d) (month d)).

(** [date(y, m, d)]; [None] stands for [ValueError]. *)
Definition datetime_date (y m d : Z) : option date :=
  let r := mkdate y m d in if date_ok r then Some r else None.

Definition toordinal (d : date) : Z := ymd2ord (year d) (month d) (day d).

(** [date.max.toordinal()] *)
Definition MAXORDINAL : Z := 3652059.

(** [d - timedelta(days=k)]; [None] stands for [OverflowError]. *)
Definition date_sub_days (d : date) (k : Z) : option date :=
  let o := toordinal d - k in
  if (0 <? o) && (o <=? MAXORDINAL) then Some (ord2ymd o) else None.

(** [d.weekday()], Monday is 0. *)
Definition weekday (d : date) : Z := (toordinal d + 6) mod 7.

(** [a >= b] on dates compares the (year, month, day) triples. *)
Definition date_ge (a b : date) : bool :=
  (year b <? year a)
  || ((year a =? year b)
      && ((month b <? month a)
          || ((month a =? month b) && (day b <=? day a)))).

(** [str(d)], also what an f-string prints for a date: [d.isoformat()],
    the year with four digits. *)
Definition isoformat (d : date) : str :=
  zero_pad 4 (year d) ++ "-"%char :: zero_pad 2 (month d)
  ++ "-"%char :: zero_pad 2 (day d).

(** [d.strftime("%Y-%m-%d")].  [%Y] is the work of the C library; the year
    is written here as the C library of Linux writes it, without leading
    zeros ("999" for the year 999).  Other platforms, and CPython from 3.13
    on, write four digits; from the year 1000 on the text is the same. *)
Definition strftime_ymd (d : date) : str :=
  str_of_nonneg (year d) ++ "-"%char :: zero_pad 2 (month d)
  ++ "-"%char :: zero_pad 2 (day d).

Definition in_range (lo hi : ascii) (c : ascii) : bool :=
  (code lo <=? code c) && (code c <=? code hi).

(** The directive [%m], regular expression [1[0-2]|0[1-9]|[1-9]]:
    the value and the rest of the input. *)
Definition match_month (s : str) : option (Z * str) :=
  match s with
  | a :: r =>
      let two :=
        match r with
        | b :: r' =>
            if Ascii.eqb a "1"%char && in_range "0" "2" b
            then Some (10 + digit_val b, r')
            else if Ascii.eqb a "0"%char && in_range "1" "9" b
            then Some (digit_val b, r')
            else None
        | [] => None
        end in
      match two with
      | Some res => Some res
      | None => if in_range "1" "9" a then Some (digit_val a, r) else None
      end
  | [] => None
  end.

(** The directive [%d], regular expression
    [3[0-1]|[1-2]\d|0[1-9]|[1-9]| [1-9]]. *)
Definition match_day (s : str) : option (Z * str) :=
  match s with
  | a :: r =>
      let two :=
        match r with
        | b :: r' =>
            if Ascii.eqb a "3"%char && in_range "0" "1" b
            then Some (30 + digit_val b, r')
            else if in_range "1" "2" a && isdigit b
            then Some (10 * digit_val a + digit_val b, r')
            else if Ascii.eqb a "0"%char && in_range "1" "9" b
            then Some (digit_val b, r')
            else None
        | [] => None
        end in
      match two with
      | Some res => Some res
      | None =>
          if in_range "1" "9" a then Some (digit_val a, r)
          else match r with
               | b :: r' =>
                   if Ascii.eqb a " "%char && in_range "1" "9" b
                   then Some (digit_val b, r') else None
               | [] => None
               end
      end
  | [] => None
  end.

(** [datetime.strptime(s, "%Y-%m-%d").date()]; [None] stands for
    [ValueError] (no match, unconverted data, or a date out of range). *)
Definition strptime_ymd (s : str) : option date :=
  match s with
  | y1 :: y2 :: y3 :: y4 :: dash1 :: r1 =>
      if isdigit y1 && isdigit y2 && isdigit y3 && isdigit y4
         && Ascii.eqb dash1 "-"%char
      then
        let y := ((digit_val y1 * 10 + digit_val y2) * 10 + digit_val y3) * 10
                 + digit_val y4 in
        match match_month r1 with
        | Some (m, dash2 :: r2) =>
            if Ascii.eqb dash2 "-"%char then
              match match_day r2 with
              | Some (d, []) => datetime_date y m d
              | _ => None
              end
            else None
        | _ => None
        end
      else None
  | _ => None
  end.

(** ** Python dictionaries and sequences *)

Section Dict.
Context {K V : Type} (keq : K -> K -> bool).

Definition dict := list (K * V).

Fixpoint dict_lookup (d : dict) (k : K) : option V :=
  match d with
  | [] => None
  | (k', v) :: r => if keq k' k then Some v else dict_lookup r k
  end.

(** [k in d] *)
Definition dict_contains (d : dict) (k : K) : bool :=
  match dict_lookup d k with Some _ => true | None => false end.

(** [d.get(k, default)] *)
Definition dict_get (d : dict) (k : K) (default : V) : V :=
  match dict_lookup d k with Some v => v | None => default end.

(** [d[k] = v]: an existing key keeps its position, a new key goes last. *)
Fixpoint dict_set (d : dict) (k : K) (v : V) : dict :=
  match d with
  | [] => [(k, v)]
  | (k', v') :: r =>
      if keq k' k then (k', v) :: r else (k', v') :: dict_set r k v
  end.
End Dict.

Arguments dict K V : clear implicits.

Definition len {A : Type} (l : list A) : Z := Z.of_nat (length l).

Definition sum (l : list Z) : Z := fold_left Z.add l 0.

Definition Qltb (a b : Q) : bool := negb (Qle_bool b a).

(** ** The world of the program and its monad *)

(** [historical_data]: date -> (diary name -> number of articles). *)
Definition Store := dict date (dict str Z).

Inductive value_error :=
| UnpackMismatch (fields : nat)
| BadDate (text : str)
| BadInt (text : str).

Inductive exn :=
| FileNotFoundError (filename : str)
| ValueError (why : value_error)
| KeyError
| IndexError
| OverflowError.

(** What a dialog reports when its text embeds numbers formatted with
    [:.2f]; the numbers are kept instead of the text. *)
Inductive report :=
| BelowFirstQuartile (q1 : Q)
| WithinInterquartileRange (q1 q3 : Q)
| MatchesMostFrequent (most_common_count : Z)
| DoesNotMatchMostFrequent (most_common_count : Z).

Inductive dialog :=
| showerror (title message : str)
| showinfo (title message : str)
| showinfo_result (r : report).

Record World := mkWorld {
  historical_data : Store;
  files : dict str str;          (* path -> content of the text file *)
  clock : date;                  (* what datetime.now().date() returns *)
  dialogs : list dialog;         (* message boxes shown so far, oldest first *)
  stdout : list str              (* lines printed so far *)
}.

Inductive result (A : Type) :=
| Ok (a : A)
| Raised (e : exn).

Arguments Ok {A} a.
Arguments Raised {A} e.

Definition M (A : Type) := World -> result A * World.

Definition ret {A} (a : A) : M A := fun w => (Ok a, w).

Definition bind {A B} (m : M A) (k : A -> M B) : M B :=
  fun w => match m w with
           | (Ok a, w') => k a w'
           | (Raised e, w') => (Raised e, w')
           end.

Definition raise {A} (e : exn) : M A := fun w => (Raised e, w).

(** [try: body except Exception as e: handler(e)] *)
Definition try_except {A} (body : M A) (handler : exn -> M A) : M A :=
  fun w => match body w with
           | (Ok a, w') => (Ok a, w')
           | (Raised e, w') => handler e w'
           end.

Declare Scope monad_scope.
Delimit Scope monad_scope with monad.
Notation "x <- m ;; k" := (bind m (fun x => k))
  (at level 61, m at next level, right associativity) : monad_scope.
Notation "m ;;; k" := (bind m (fun _ => k))
  (at level 61, right associativity) : monad_scope.
Local Open Scope monad_scope.

Definition lift {A} (r : result A) : M A := fun w => (r, w).

Definition of_option {A} (e : exn) (o : option A) : result A :=
  match o with Some a => Ok a | None => Raised e end.

(** [for x in xs: body], the loop variables threaded as [s]. *)
Fixpoint for_each {A S} (xs : list A) (body : A -> S -> M S) (s : S) : M S :=
  match xs with
  | [] => ret s
  | x :: r => s' <- body x s ;; for_each r body s'
  end.

Definition set_historical_data (h : Store) (w : World) : World :=
  mkWorld h (files w) (clock w) (dialogs w) (stdout w).

Definition set_files (f : dict str str) (w : World) : World :=
  mkWorld (historical_data w) f (clock w) (dialogs w) (stdout w).

Definition add_dialog (d : dialog) (w : World) : World :=
  mkWorld (historical_data w) (files w) (clock w) (dialogs w ++ [d]) (stdout w).

Definition add_stdout (s : str) (w : World) : World :=
  mkWorld (historical_data w) (files w) (clock w) (dialogs w) (stdout w ++ [s]).

(** [historical_data = defaultdict(dict)] *)
Definition hd_reset : M unit :=
  fun w => (Ok tt, set_historical_data [] w).

(** [day in historical_data] *)
Definition hd_contains (d : date) : M bool :=
  fun w => (Ok (dict_contains date_eqb (historical_data w) d), w).

(** [historical_data[d]]: the store is a [defaultdict(dict)], so indexing
    with an absent date inserts an empty sub-mapping for it. *)
Definition hd_getitem (d : date) : M (dict str Z) :=
  fun w => match dict_lookup date_eqb (historical_data w) d with
           | Some sub => (Ok sub, w)
           | None => (Ok [], set_historical_data (historical_data w ++ [(d, [])]) w)
           end.

(** [historical_data.items()] *)
Definition hd_items : M (list (date * dict str Z)) :=
  fun w => (Ok (historical_data w), w).

(** [historical_data[d][diary] = count]: the sub-mapping returned by the
    indexing is the object stored in the outer mapping. *)
Definition hd_setitem2 (d : date) (diary : str) (count : Z) : M unit :=
  sub <- hd_getitem d ;;
  fun w => (Ok tt,
            set_historical_data
              (dict_set date_eqb (historical_data w) d
                 (dict_set str_eqb sub diary count)) w).

(** [datetime.now().date()] *)
Definition datetime_now_date : M date := fun w => (Ok (clock w), w).

Definition messagebox (d : dialog) : M unit := fun w => (Ok tt, add_dialog d w).

Definition print (s : str) : M unit := fun w => (Ok tt, add_stdout s w).

(** [open(filename, 'r')] followed by reading the whole text. *)
Definition open_read (filename : str) : M str :=
  fun w => (of_option (FileNotFoundError filename)
              (dict_lookup str_eqb (files w) filename), w).

(** [open(filename, 'w')] followed by writing [content]: full overwrite. *)
Definition open_write (filename content : str) : M unit :=
  fun w => (Ok tt, set_files (dict_set str_eqb (files w) filename content) w).

(** Text mode with universal newlines: "\r\n" and "\r" read as "\n". *)
Fixpoint universal_newlines (s : str) : str :=
  match s with
  | [] => []
  | c :: r =>
      if Ascii.eqb c carriage_return then
        newline :: match r with
                   | d :: r' =>
                       if Ascii.eqb d newline then universal_newlines r'
                       else universal_newlines r
                   | [] => []
                   end
      else c :: universal_newlines r
  end.

(** The lines of a text, each with its terminating "\n" when it has one. *)
Fixpoint lines_keepends (s : str) : list str :=
  match s with
  | [] => []
  | c :: r =>
      if Ascii.eqb c newline then [newline] :: lines_keepends r
      else match lines_keepends r with
           | l :: ls => (c :: l) :: ls
           | [] => [[c]]
           end
  end.

(** [for line in file] *)
Definition file_lines (content : str) : list str :=
  lines_keepends (universal_newlines content).

(** ** [main.py] *)

Section Load.
(** [str(e)], the text of an exception, is left open. *)
Variable exn_text : exn -> str.

(** [date_str, count_str, diary_name = fields] *)
Definition unpack3 (fields : list str) : result (str * str * str) :=
  match fields with
  | [a; b; c] => Ok (a, b, c)
  | _ => Raised (ValueError (UnpackMismatch (length fields)))
  end.

(** The body of the loop of [load_data_from_file], lines 22-25. *)
Definition load_line (line : str) : M unit :=
  fields <- lift (unpack3 (split comma (strip line))) ;;
  let '(date_str, count_str, diary_name) := fields in
  date <- lift (of_option (ValueError (BadDate date_str))
                  (strptime_ymd date_str)) ;;
  article_count <- lift (of_option (ValueError (BadInt count_str))
                           (py_int count_str)) ;;
  hd_setitem2 date diary_name article_count.

Definition load_data_from_file (filename : str) : M unit :=
  hd_reset ;;;
  try_except
    (content <- open_read filename ;;
     for_each (file_lines content) (fun line _ => load_line line) tt ;;;
     print (lit "Data successfully loaded from " ++ filename ++ lit "."))
    (fun e =>
       match e with
       | FileNotFoundError _ =>
           messagebox (showerror (lit "Error")
                         (lit "File " ++ filename ++ lit " not found."))
       | _ =>
           messagebox (showerror (lit "Error")
                         (lit "Failed to load data from file: "
                          ++ exn_text e))
       end).
End Load.

Definition add_article_count (d : date) (diary_name : str) (count : Z)
  : M unit :=
  hd_setitem2 d diary_name count ;;;
  messagebox
    (showinfo (lit "Success")
       (lit "Articles for " ++ isoformat d ++ lit " from " ++ diary_name
        ++ lit " updated with " ++ py_str_int count ++ lit " articles.")).

(** [d[k]] on a plain dictionary. *)
Definition getitem {K V} (keq : K -> K -> bool) (d : dict K V) (k : K)
  : result V :=
  of_option KeyError (dict_lookup keq d k).

(** [weekday_data[weekday].append(count)] on a [defaultdict(list)]. *)
Definition defaultdict_append (wd : dict Z (list Z)) (k : Z) (count : Z)
  : dict Z (list Z) :=
  dict_set Z.eqb wd k (dict_get Z.eqb wd k [] ++ [count]).

(** [(sum(counts) / len(counts)) if counts else 0] *)
Definition average_or_zero (counts : list Z) : Q :=
  match counts with
  | [] => 0%Q
  | _ => (inject_Z (sum counts) / inject_Z (len counts))%Q
  end.

Definition calculate_weekday_averages (diary_name : str) : M (dict Z Q) :=
  today <- datetime_now_date ;;
  six_months_ago <- lift (of_option OverflowError (date_sub_days today 180)) ;;
  items <- hd_items ;;
  weekday_data <-
    for_each items
      (fun '(d, diaries) weekday_data =>
         if date_ge d six_months_ago && dict_contains str_eqb diaries diary_name
         then
           count <- lift (getitem str_eqb diaries diary_name) ;;
           ret (defaultdict_append weekday_data (weekday d) count)
         else ret weekday_data)
      [] ;;
  ret (map (fun '(wday, counts) => (wday, average_or_zero counts)) weekday_data).

(** ** Statistics *)

(** [statistics.mean] of integers: the exact quotient. *)
Definition statistics_mean (data : list Z) : Q :=
  (inject_Z (sum data) / inject_Z (len data))%Q.

(** The exact sum of squared deviations as [statistics._ss] computes it:
    [(n * sum(x*x) - sum(x)**2) / n]. *)
Definition statistics_ss (data : list Z) : Q :=
  let n := len data in
  let sx := sum data in
  let sxx := sum (map (fun x => x * x) data) in
  (inject_Z (n * sxx - sx * sx) / inject_Z n)%Q.

(** [statistics.variance]: [ss / (n - 1)], exact. *)
Definition statistics_variance (data : list Z) : Q :=
  (statistics_ss data / inject_Z (len data - 1))%Q.

(** [statistics.stdev]: the square root of the exact variance. *)
Definition statistics_stdev (data : list Z) : R :=
  sqrt (Q2R (statistics_variance data)).

Definition calculate_coefficient_of_variation (data : list Z) : R :=
  if len data <? 2 then 0%R
  else
    let mean := statistics_mean data in
    let std_dev := statistics_stdev data in
    if Qeq_bool mean 0 then 0%R else (std_dev / Q2R mean)%R.

Fixpoint insert_sorted (x : Z) (l : list Z) : list Z :=
  match l with
  | [] => [x]
  | y :: r => if x <=? y then x :: l else y :: insert_sorted x r
  end.

(** The sorted copy of the data that [np.percentile] works on. *)
Definition np_sort (l : list Z) : list Z := fold_right insert_sorted [] l.

(** [np.percentile(data, q)] with the default method "linear": the value at
    the virtual index [(n - 1) * q / 100] of the sorted data, interpolated
    between the two neighbouring elements. *)
Definition np_percentile (data : list Z) (q : Q) : Q :=
  let arr := np_sort data in
  let n := len data in
  let virtual_index := (inject_Z (n - 1) * (q / 100))%Q in
  let previous := Qfloor virtual_index in
  let next := Z.min (previous + 1) (n - 1) in
  let gamma := (virtual_index - inject_Z previous)%Q in
  let a := nth (Z.to_nat previous) arr 0 in
  let b := nth (Z.to_nat next) arr 0 in
  (inject_Z a + inject_Z (b - a) * gamma)%Q.

Definition calculate_interquartile_range (data : list Z) : Q * Q * Q :=
  if len data <? 4 then (0%Q, 0%Q, 0%Q)
  else
    let q1 := np_percentile data 25 in
    let q3 := np_percentile data 75 in
    let iqr := (q3 - q1)%Q in
    (q1, q3, iqr).

(** [Counter(data)]: the number of occurrences of each value, the values in
    the order of their first occurrence. *)
Definition Counter (data : list Z) : dict Z Z :=
  fold_left (fun c x => dict_set Z.eqb c x (dict_get Z.eqb c x 0 + 1)) data [].

(** [max(items, key=itemgetter(1))]: a later item replaces the current best
    only when its count is strictly greater. *)
Definition max_by_count (items : list (Z * Z)) : option (Z * Z) :=
  match items with
  | [] => None
  | it :: r =>
      Some (fold_left (fun best x => if snd best <? snd x then x else best) r it)
  end.

(** [freq_dist.most_common(1)] *)
Definition most_common_1 (freq_dist : dict Z Z) : list (Z * Z) :=
  match max_by_count freq_dist with
  | Some it => [it]
  | None => []
  end.

Definition check_frequency_distribution (data : list Z) (count : Z)
  : result (bool * Z) :=
  let freq_dist := Counter data in
  match most_common_1 freq_dist with
  | (most_common_count, _) :: _ => Ok (count =? most_common_count, most_common_count)
  | [] => Raised IndexError
  end.

(** The three-way test at the end of [check_article_count], lines 89-94. *)
Definition classify (count : Z) (average : Q) : str :=
  if Qltb (inject_Z count) ((8 # 10) * average) then
    lit "under 80% of the average"
  else if Qltb average (inject_Z count) then
    lit "above the average"
  else
    lit "within 80% of the average".

Definition check_article_count (today : date) (diary_name : str) (count : Z)
  : M (str * Q) :=
  weekday_averages <- calculate_weekday_averages diary_name ;;
  let today_weekday := weekday today in
  let average := dict_get Z.eqb weekday_averages today_weekday 0%Q in
  ret (classify count average, average).

Definition get_last_week_summary (d : date) (diary_name : str)
  : M (dict date Z) :=
  for_each (map Z.of_nat (seq 0 7))
    (fun i last_week_data =>
       day_i <- lift (of_option OverflowError (date_sub_days d i)) ;;
       present <- hd_contains day_i ;;
       v <- (if present
             then sub <- hd_getitem day_i ;; ret (dict_get str_eqb sub diary_name 0)
             else ret 0) ;;
       ret (dict_set date_eqb last_week_data day_i v))
    [].

(** The six-month sample collected in [submit_data], lines 220-224. *)
Definition six_months_sample (diary_name : str) : M (list Z) :=
  today <- datetime_now_date ;;
  six_months_ago <- lift (of_option OverflowError (date_sub_days today 180)) ;;
  items <- hd_items ;;
  for_each items
    (fun '(day_i, diaries) six_months_data =>
       if date_ge day_i six_months_ago && dict_contains str_eqb diaries diary_name
       then
         count <- lift (getitem str_eqb diaries diary_name) ;;
         ret (six_months_data ++ [count])
       else ret six_months_data)
    [].

(** The analysis by coefficient of variation in [submit_data], lines
    227-251; every dialog it shows has the title "Result". *)
Definition secondary_analysis (six_months_data : list Z) (article_count : Z)
  : M unit :=
  if 0 <? len six_months_data then
    let coef_variation := calculate_coefficient_of_variation six_months_data in
    if Rgt_dec coef_variation (2 / 10) then
      let '(q1, q3, iqr) := calculate_interquartile_range six_months_data in
      if Qltb (inject_Z article_count) q1
      then messagebox (showinfo_result (BelowFirstQuartile q1))
      else messagebox (showinfo_result (WithinInterquartileRange q1 q3))
    else
      r <- lift (check_frequency_distribution six_months_data article_count) ;;
      let '(is_most_frequent, most_common_count) := r in
      if is_most_frequent
      then messagebox (showinfo_result (MatchesMostFrequent most_common_count))
      else messagebox (showinfo_result (DoesNotMatchMostFrequent most_common_count))
  else ret tt.

(** [file.write(text)] on a file opened for writing. *)
Definition file_write (filename text : str) : M unit :=
  fun w => (Ok tt,
            set_files
              (dict_set str_eqb (files w) filename
                 (dict_get str_eqb (files w) filename [] ++ text)) w).

(** One saved line: [f"{date.strftime('%Y-%m-%d')},{count},{diary}\n"]. *)
Definition record_line (d : date) (count : Z) (diary : str) : str :=
  strftime_ymd d ++ comma :: py_str_int count ++ comma :: diary ++ [newline].

(** The saving of the store in [submit_data], lines 260-263. *)
Definition save_data (data_file : str) : M unit :=
  open_write data_file [] ;;;
  items <- hd_items ;;
  for_each items
    (fun '(d, diaries) _ =>
       for_each diaries
         (fun '(diary, count) _ => file_write data_file (record_line d count diary))
         tt)
    tt.

(** The text of the "Last Week Summary" dialog. *)
Fixpoint join (sep : str) (parts : list str) : str :=
  match parts with
  | [] => []
  | [p] => p
  | p :: r => p ++ sep ++ join sep r
  end.

Definition summary_text (diary_name : str) (rows : dict date Z) : str :=
  lit "Last week's summary for " ++ diary_name ++ lit ":" ++ [newline]
  ++ join [newline]
       (map (fun '(d, count) => isoformat d ++ lit ": " ++ py_str_int count)
          rows).

(** [ArticleTrackerApp.submit_data], as a function of the three widget
    values; the text of the summary label is not modelled. *)
Definition submit_data (data_file : str) (d : date)
    (diary_name article_count_str : str) : M unit :=
  match py_int article_count_str with
  | None =>
      messagebox (showerror (lit "Input Error")
                    (lit "Please enter a valid article count."))
  | Some article_count =>
      match diary_name with
      | [] =>
          messagebox (showerror (lit "Input Error")
                        (lit "Please enter a valid diary name."))
      | _ =>
          add_article_count d diary_name article_count ;;;
          _ <- check_article_count d diary_name article_count ;;
          six_months_data <- six_months_sample diary_name ;;
          secondary_analysis six_months_data article_count ;;;
          last_week_summary <- get_last_week_summary d diary_name ;;
          messagebox (showinfo (lit "Last Week Summary")
                        (summary_text diary_name last_week_summary)) ;;;
          save_data data_file ;;;
          print (lit "Data saved to file.")
      end
  end.

(** ** [main.py]: the dialog of the weekday averages *)

(** [enumerate(l)] *)
Definition enumerate {A : Type} (l : list A) : list (Z * A) :=
  combine (map Z.of_nat (seq 0 (length l))) l.

Definition days_of_week : list str :=
  [lit "Monday"; lit "Tuesday"; lit "Wednesday"; lit "Thursday";
   lit "Friday"; lit "Saturday"; lit "Sunday"].

Section Show.
(** [f"{x:.2f}"], the text of a number with two decimals, is left open. *)
Variable format_2f : Q -> str.

Definition show_weekday_averages (diary_name : str) : M unit :=
  weekday_averages <- calculate_weekday_averages diary_name ;;
  let averages_str :=
    lit "Averages for " ++ diary_name
    ++ lit " for each day of the week (last 6 months):" ++ [newline] in
  averages_str <-
    for_each (enumerate days_of_week)
      (fun '(i, day_name) averages_str =>
         ret (averages_str ++ day_name ++ lit ": "
              ++ format_2f (dict_get Z.eqb weekday_averages i 0%Q)
              ++ lit " articles" ++ [newline]))
      averages_str ;;
  messagebox (showinfo (lit "Weekday Averages") averages_str).

End Show.

(** ** Notions used to state the properties *)

(** *** Statistics *)

Definition Qsum (l : list Q) : Q := fold_right Qplus 0%Q l.

(** The sample variance with Bessel's correction, as the specification words
    it: the sum of the squared deviations from the mean, divided by
    [n - 1]. *)
Definition sample_variance (data : list Z) : Q :=
  let m := statistics_mean data in
  (Qsum (map (fun x => (inject_Z x - m) * (inject_Z x - m)) data)
   / inject_Z (len data - 1))%Q.



(** The position of the first occurrence of [v] in [l], the length of [l]
    when there is none. *)
Fixpoint index_of (v : Z) (l : list Z) : nat :=
  match l with
  | [] => O
  | x :: r => if x =? v then O else S (index_of v r)
  end.

(** How often [v] occurs in [l]. *)
Definition frequency (l : list Z) (v : Z) : nat := count_occ Z.eq_dec l v.

(** [a] first occurs in [l] before [b] does. *)
Definition first_seen_before (l : list Z) (a b : Z) : Prop :=
  (index_of a l < index_of b l)%nat.

(** The test [coef_variation > 0.2] decided in exact arithmetic: the sample
    has at least two values, a positive mean, and a variance above the
    square of a fifth of the mean. *)
Definition high_variation (data : list Z) : bool :=
  (2 <=? len data)
  && Qltb 0 (statistics_mean data)
  && Qltb (statistics_mean data * statistics_mean data)
          (25 * statistics_variance data).

(** *** The calendar *)

(** The month and the day of the [n]-th day (from 0) of a year, as the end
    of [ord2ymd] finds them: an estimate of the month, corrected when it is
    too large. *)
Definition month_day_of (leapyear : bool) (n : Z) : Z * Z :=
  let m := Z.shiftr (n + 50) 5 in
  let preceding :=
    table DAYS_BEFORE_MONTH m + (if (2 <? m) && leapyear then 1 else 0) in
  if n <? preceding then
    let m := m - 1 in
    let preceding :=
      preceding
      - (table DAYS_IN_MONTH m + (if (m =? 2) && leapyear then 1 else 0)) in
    (m, n - preceding + 1)
  else (m, n - preceding + 1).

(** What has to hold of [month_day_of leapyear n]: a month, a day of that
    month, and [n] days before it in the year. *)
Definition month_day_ok (leapyear : bool) (n : Z) : bool :=
  let '(m, d) := month_day_of leapyear n in
  (1 <=? m) && (m <=? 12) && (1 <=? d)
  && (d <=? (if (m =? 2) && leapyear then 29 else table DAYS_IN_MONTH m))
  && (table DAYS_BEFORE_MONTH m + (if (2 <? m) && leapyear then 1 else 0) + d
      =? n + 1).

(** [a < b] on dates. *)
Definition date_lt (a b : date) : Prop :=
  year a < year b
  \/ (year a = year b
      /\ (month a < month b \/ (month a = month b /\ day a < day b))).

(** *** The store and the world *)

Definition keys {K V : Type} (d : dict K V) : list K := map fst d.

(** The count stored for a date and a diary, if any. *)
Definition store_lookup (h : Store) (d : date) (diary : str) : option Z :=
  match dict_lookup date_eqb h d with
  | Some sub => dict_lookup str_eqb sub diary
  | None => None
  end.

(** The count stored for a date and a diary, 0 when there is none. *)
Definition stored_count (h : Store) (d : date) (diary : str) : Z :=
  match store_lookup h d diary with Some c => c | None => 0 end.

(** Every date of the store is a date of the calendar. *)
Definition store_dates_ok (h : Store) : Prop :=
  Forall (fun entry => date_ok (fst entry) = true) h.



(** The keys of a dictionary are pairwise distinct, in the store and in each
    of its sub-mappings. *)
Definition store_wf (h : Store) : Prop :=
  NoDup (keys h) /\ Forall (fun entry => NoDup (keys (snd entry))) h.

(** The store after [historical_data[d][diary] = count]. *)
Definition store_set (h : Store) (d : date) (diary : str) (count : Z) : Store :=
  match dict_lookup date_eqb h d with
  | Some sub => dict_set date_eqb h d (dict_set str_eqb sub diary count)
  | None => h ++ [(d, [(diary, count)])]
  end.

(** An operation that leaves the whole world as it found it. *)
Definition read_only {A : Type} (m : M A) (w : World) : Prop := snd (m w) = w.

(** The world in which the file at [path] has the text [content]. *)
Definition with_file (path content : str) (w : World) : World :=
  set_files (dict_set str_eqb (files w) path content) w.

(** *** Weekday averages *)



(** What one iteration of the loop of [calculate_weekday_averages] does to
    [weekday_data]. *)
Definition weekday_step (six_months_ago : date) (diary : str)
    (weekday_data : dict Z (list Z)) (item : date * dict str Z)
  : dict Z (list Z) :=
  let '(d, diaries) := item in
  if date_ge d six_months_ago && dict_contains str_eqb diaries diary
  then defaultdict_append weekday_data (weekday d)
         (dict_get str_eqb diaries diary 0)
  else weekday_data.


(** *** The text of a file *)

(** What the loop body of [load_data_from_file] reads from a line: the
    date, the diary and the count, or the exception that it raises. *)
Definition parse_line (line : str) : result (date * str * Z) :=
  match unpack3 (split comma (strip line)) with
  | Ok (date_str, count_str, diary_name) =>
      match strptime_ymd date_str with
      | None => Raised (ValueError (BadDate date_str))
      | Some d =>
          match py_int count_str with
          | None => Raised (ValueError (BadInt count_str))
          | Some n => Ok (d, diary_name, n)
          end
      end
  | Raised e => Raised e
  end.

(** The store that the lines build, from the store [h], as long as they
    parse. *)
Definition records_of_lines (lines : list str) (h : Store) : Store :=
  fold_left
    (fun h line =>
       match parse_line line with
       | Ok (d, diary, n) => store_set h d diary n
       | Raised _ => h
       end)
    lines h.

(** A saved line without its line break. *)
Definition record_body (d : date) (count : Z) (diary : str) : str :=
  strftime_ymd d ++ comma :: py_str_int count ++ comma :: diary.

(** The text that saving writes for a store: one line per record. *)
Definition store_text (h : Store) : str :=
  flat_map
    (fun '(d, diaries) =>
       flat_map (fun '(diary, count) => record_line d count diary) diaries)
    h.

(** The records of a store, in the order of the store. *)
Definition store_records (h : Store) : list (date * str * Z) :=
  flat_map
    (fun '(d, diaries) => map (fun '(diary, count) => (d, diary, count)) diaries)
    h.



(** A diary name that survives saving and loading: no comma, no line break,
    and no whitespace at its end. *)
Definition diary_name_ok (diary : str) : bool :=
  forallb
    (fun c =>
       negb (Ascii.eqb c comma) && negb (Ascii.eqb c newline)
       && negb (Ascii.eqb c carriage_return))
    diary
  && match rev diary with
     | c :: _ => negb (isspace c)
     | [] => true
     end.

Definition diaries_ok (h : Store) : Prop :=
  Forall
    (fun entry => Forall (fun r => diary_name_ok (fst r) = true) (snd entry))
    h.

(** The value of a string of digits read after [acc]. *)
Definition digits_value (acc : Z) (s : str) : Z :=
  fold_left (fun a c => a * 10 + digit_val c) s acc.

(** A character of a date or of an integer as they are written. *)
Definition numeric_char (c : ascii) : bool :=
  isdigit c || Ascii.eqb c "-"%char.


(** The two digits written for a day are read back as that day by [%d]. *)
Definition day_text_ok (d : Z) : bool :=
  forallb isdigit (zero_pad 2 d)
  && match match_day (zero_pad 2 d) with
     | Some (v, []) => v =? d
     | _ => false
     end.

(** *** Worlds for the examples *)

(** A world for the examples: nothing stored, no file, no dialog yet. *)
Definition quiet_world : World := mkWorld [] [] (mkdate 2024 3 1) [] [].

(** A world for the examples: four records and the clock at 2024-03-01.
    2024-01-01 and 2024-01-08 are Mondays, 2024-01-09 is a Tuesday, and
    2023-01-02 is a Monday more than 180 days before the clock. *)
Definition sample_world : World :=
  mkWorld
    [ (mkdate 2023 1 2, [(lit "X", 100)]);
      (mkdate 2024 1 1, [(lit "X", 5); (lit "Y", 6)]);
      (mkdate 2024 1 8, [(lit "X", 8)]);
      (mkdate 2024 1 9, [(lit "X", 2)]) ]
    [] (mkdate 2024 3 1) [] [].



(** ** Notions used to state further properties *)

(** The records of the lines of a file up to the first line that does not
    parse: what a load reads before it stops. *)
Fixpoint parsed_prefix (lines : list str) : list (date * str * Z) :=
  match lines with
  | [] => []
  | l :: r =>
      match parse_line l with
      | Ok rec => rec :: parsed_prefix r
      | Raised _ => []
      end
  end.

(** How many commas a text has. *)
Definition commas (s : str) : nat := count_occ ascii_dec s comma.

(** The number of records of a store: the lines that saving writes. *)
Definition record_count (h : Store) : nat := length (store_records h).

(** No date of the store has an empty sub-mapping. *)
Definition no_empty_date (h : Store) : Prop :=
  Forall (fun entry => snd entry <> []) h.

(** A character that is no line break. *)
Definition plain_char (c : ascii) : bool :=
  negb (Ascii.eqb c newline) && negb (Ascii.eqb c carriage_return).

(** A line as the iteration over a text file gives it: no carriage return,
    and no line feed but possibly one at its end. *)
Definition line_shape (l : str) : Prop :=
  exists body : str,
    (l = body ++ [newline] \/ l = body) /\ forallb plain_char body = true.

(** What every load leaves in the store: distinct keys, dates of the
    calendar, diary names without comma, line break or whitespace at their
    end, and at least one diary for each date. *)
Definition store_loaded_ok (h : Store) : Prop :=
  store_wf h /\ store_dates_ok h /\ diaries_ok h /\ no_empty_date h.

(** No diary name of the store has a line break. *)
Definition diaries_plain (h : Store) : Prop :=
  Forall
    (fun entry => Forall (fun r => forallb plain_char (fst r) = true) (snd entry))
    h.




(** The counts that the loop of [submit_data] collects for its sample. *)
Definition collected_sample (six_months_ago : date) (diary : str)
    (items : list (date * dict str Z)) : list Z :=
  flat_map
    (fun '(d, diaries) =>
       if date_ge d six_months_ago && dict_contains str_eqb diaries diary
       then [dict_get str_eqb diaries diary 0] else [])
    items.



(** A world for the examples whose store has one record, for a diary name
    with a comma. *)
Definition comma_world : World :=
  mkWorld [(mkdate 2024 1 1, [(lit "A,B", 5)])] [] (mkdate 2024 3 1) [] [].

(* ================================================================== *)
(** * Part II. Properties *)
(* ================================================================== *)

(** ** Comparisons *)

Lemma Qltb_spec (a b : Q) : Qltb a b = true <-> (a < b)%Q.
Proof.
  unfold Qltb. rewrite negb_true_iff. split; intro H.
  - apply Qnot_le_lt. intro L. apply Qle_bool_iff in L. congruence.
  - destruct (Qle_bool b a) eqn:E; [|reflexivity].
    apply Qle_bool_iff in E. exfalso. exact (Qlt_not_le _ _ H E).
Qed.

Lemma Qltb_false (a b : Q) : Qltb a b = false <-> ~ (a < b)%Q.
Proof.
  rewrite <- Qltb_spec. destruct (Qltb a b); split; congruence.
Qed.

(** ** The three-way classification (C3) *)





(** ** Sums and the coefficient of variation (C6) *)

Lemma fold_left_add_shift (l : list Z) (a : Z) :
  fold_left Z.add l a = a + fold_left Z.add l 0.
Proof.
  revert a. induction l as [|x l IH]; intro a; simpl; [lia|].
  rewrite (IH (a + x)), (IH x). lia.
Qed.

Lemma sum_cons (x : Z) (l : list Z) : sum (x :: l) = x + sum l.
Proof. unfold sum. simpl. apply fold_left_add_shift. Qed.

Lemma sum_app (l1 l2 : list Z) : sum (l1 ++ l2) = sum l1 + sum l2.
Proof.
  induction l1 as [|x l IH]; [reflexivity|].
  simpl app. rewrite !sum_cons, IH. lia.
Qed.

Lemma len_cons {A} (x : A) (l : list A) : len (x :: l) = 1 + len l.
Proof. unfold len. simpl length. lia. Qed.

Lemma len_nonneg {A} (l : list A) : 0 <= len l.
Proof. unfold len. lia. Qed.

(** The sum of squared deviations from any centre [m], expanded. *)
Lemma squared_deviations_expand (data : list Z) (m : Q) :
  (Qsum (map (fun x => (inject_Z x - m) * (inject_Z x - m)) data)
   == inject_Z (sum (map (fun x => (x * x)%Z) data))
      - (2 # 1) * m * inject_Z (sum data)
      + inject_Z (len data) * m * m)%Q.
Proof.
  induction data as [|x l IH].
  - change (0 == 0 - (2 # 1) * m * 0 + 0 * m * m)%Q. ring.
  - simpl map. simpl Qsum. rewrite IH, !sum_cons, len_cons.
    rewrite !inject_Z_plus, inject_Z_mult. 
    change (inject_Z 1) with 1%Q. ring.
Qed.

(** The exact computation of [statistics] agrees with the textbook sum of
    squared deviations from the mean. *)
Lemma statistics_variance_sample (data : list Z) :
  (statistics_variance data == sample_variance data)%Q.
Proof.
  unfold statistics_variance, sample_variance, statistics_ss.
  cbv zeta. rewrite squared_deviations_expand. unfold statistics_mean.
  destruct data as [|x l].
  - reflexivity.
  - assert (N : ~ (inject_Z (len (x :: l)) == 0)%Q).
    { rewrite len_cons. pose proof (len_nonneg l).
      change 0%Q with (inject_Z 0). rewrite inject_Z_injective. lia. }
    set (n := len (x :: l)) in *.
    set (s := sum (x :: l)). set (q := sum (map (fun x => x * x) (x :: l))).
    unfold Qdiv. apply Qmult_comp; [|reflexivity].
    unfold Z.sub. rewrite inject_Z_plus, inject_Z_opp, !inject_Z_mult.
    field. exact N.
Qed.



(** ** Sorting and quartiles (C7) *)

Lemma insert_sorted_perm (x : Z) (l : list Z) :
  Permutation (x :: l) (insert_sorted x l).
Proof.
  induction l as [|y l IH]; simpl; [apply Permutation_refl|].
  destruct (x <=? y); [apply Permutation_refl|].
  eapply perm_trans; [apply perm_swap|]. apply perm_skip, IH.
Qed.

Lemma np_sort_perm (l : list Z) : Permutation l (np_sort l).
Proof.
  induction l as [|x l IH]; simpl; [constructor|].
  eapply perm_trans; [apply perm_skip, IH|]. apply insert_sorted_perm.
Qed.

Lemma insert_sorted_hd (x a : Z) (l : list Z) :
  a <= x -> HdRel Z.le a l -> HdRel Z.le a (insert_sorted x l).
Proof.
  intros Hax H. destruct l as [|y l]; simpl; [constructor; exact Hax|].
  destruct (x <=? y); constructor; [exact Hax|].
  inversion H; assumption.
Qed.

Lemma insert_sorted_sorted (x : Z) (l : list Z) :
  Sorted Z.le l -> Sorted Z.le (insert_sorted x l).
Proof.
  induction 1 as [|y l S IH H]; simpl; [repeat constructor|].
  destruct (x <=? y) eqn:E.
  - apply Z.leb_le in E. repeat constructor; assumption.
  - apply Z.leb_gt in E. constructor; [exact IH|].
    apply insert_sorted_hd; [lia | exact H].
Qed.

Lemma np_sort_sorted (l : list Z) : Sorted Z.le (np_sort l).
Proof.
  induction l as [|x l IH]; simpl; [constructor|].
  apply insert_sorted_sorted, IH.
Qed.





(** ** Dictionaries *)

Section DictFacts.
Context {K V : Type} (keq : K -> K -> bool).
Hypothesis keq_eq : forall a b, keq a b = true <-> a = b.

Lemma keq_refl (k : K) : keq k k = true.
Proof. apply keq_eq. reflexivity. Qed.

Lemma keq_neq (a b : K) : a <> b -> keq a b = false.
Proof.
  intro N. destruct (keq a b) eqn:E; [|reflexivity].
  apply keq_eq in E. contradiction.
Qed.

Lemma dict_lookup_none (d : dict K V) (k : K) :
  dict_lookup keq d k = None <-> ~ In k (keys d).
Proof.
  induction d as [|[k' v] d IH]; simpl.
  - split; [intros _ []|reflexivity].
  - destruct (keq k' k) eqn:E.
    + apply keq_eq in E. split; [discriminate|]. intro N. exfalso. auto.
    + rewrite IH. split.
      * intros N [H|H]; [|auto]. subst. rewrite keq_refl in E. discriminate.
      * intros N H. auto.
Qed.

Lemma dict_lookup_in (d : dict K V) (k : K) (v : V) :
  dict_lookup keq d k = Some v -> In (k, v) d.
Proof.
  induction d as [|[k' v'] d IH]; simpl; [discriminate|].
  destruct (keq k' k) eqn:E.
  - apply keq_eq in E. intro H. injection H as ->. subst. auto.
  - auto.
Qed.

Lemma dict_in_lookup (d : dict K V) (k : K) (v : V) :
  NoDup (keys d) -> In (k, v) d -> dict_lookup keq d k = Some v.
Proof.
  induction d as [|[k' v'] d IH]; simpl; [intros _ []|].
  intros ND [H|H].
  - injection H as -> ->. rewrite keq_refl. reflexivity.
  - inversion ND as [|? ? NI ND']; subst.
    destruct (keq k' k) eqn:E.
    + apply keq_eq in E. subst. exfalso. apply NI.
      change k with (fst (k, v)). apply in_map, H.
    + apply IH; assumption.
Qed.

Lemma dict_lookup_set_same (d : dict K V) (k : K) (v : V) :
  dict_lookup keq (dict_set keq d k v) k = Some v.
Proof.
  induction d as [|[k' v'] d IH]; simpl.
  - rewrite keq_refl. reflexivity.
  - destruct (keq k' k) eqn:E; simpl; rewrite E; [reflexivity | exact IH].
Qed.

Lemma dict_lookup_set_other (d : dict K V) (k k0 : K) (v : V) :
  k0 <> k -> dict_lookup keq (dict_set keq d k v) k0 = dict_lookup keq d k0.
Proof.
  intro N. induction d as [|[k' v'] d IH]; simpl.
  - rewrite keq_neq; [reflexivity | auto].
  - destruct (keq k' k) eqn:E; simpl.
    + apply keq_eq in E. subst. rewrite keq_neq by auto. reflexivity.
    + rewrite IH. reflexivity.
Qed.

(** Assigning to an absent key appends the entry. *)
Lemma dict_set_absent (d : dict K V) (k : K) (v : V) :
  dict_lookup keq d k = None -> dict_set keq d k v = d ++ [(k, v)].
Proof.
  induction d as [|[k' v'] d IH]; simpl; [reflexivity|].
  destruct (keq k' k); [discriminate|]. intro H. rewrite IH; auto.
Qed.

(** Assigning to a present key replaces its value where it stands. *)
Lemma dict_set_present (pre post : dict K V) (k : K) (old v : V) :
  ~ In k (keys pre) ->
  dict_set keq (pre ++ (k, old) :: post) k v = pre ++ (k, v) :: post.
Proof.
  induction pre as [|[k' v'] pre IH]; simpl; intro N.
  - rewrite keq_refl. reflexivity.
  - rewrite keq_neq by (intro; subst; auto). rewrite IH; auto.
Qed.

Lemma dict_set_keys_present (d : dict K V) (k : K) (v : V) :
  In k (keys d) -> keys (dict_set keq d k v) = keys d.
Proof.
  induction d as [|[k' v'] d IH]; simpl; [intros []|].
  destruct (keq k' k) eqn:E; [reflexivity|].
  intros [H|H]; [subst; rewrite keq_refl in E; discriminate|].
  simpl. f_equal. apply IH, H.
Qed.

Lemma dict_lookup_app_last (d : dict K V) (k : K) (v : V) :
  dict_lookup keq d k = None -> dict_lookup keq (d ++ [(k, v)]) k = Some v.
Proof.
  intro H. rewrite <- (dict_set_absent d k v H). apply dict_lookup_set_same.
Qed.
End DictFacts.

(** ** The most frequent value (C8) *)

Lemma index_of_app_in (v : Z) (l l' : list Z) :
  In v l -> index_of v (l ++ l') = index_of v l.
Proof.
  induction l as [|x l IH]; simpl; [intros []|].
  destruct (x =? v) eqn:E; [reflexivity|].
  intros [H|H]; [apply Z.eqb_neq in E; contradiction|].
  rewrite IH; auto.
Qed.

Lemma index_of_lt (v : Z) (l : list Z) :
  In v l -> (index_of v l < length l)%nat.
Proof.
  induction l as [|x l IH]; simpl; [intros []|].
  destruct (x =? v) eqn:E; [lia|].
  intros [H|H]; [apply Z.eqb_neq in E; contradiction|].
  apply IH in H. lia.
Qed.

Lemma index_of_new (v : Z) (l : list Z) :
  ~ In v l -> index_of v (l ++ [v]) = length l.
Proof.
  induction l as [|x l IH]; simpl; intro N.
  - rewrite Z.eqb_refl. reflexivity.
  - destruct (x =? v) eqn:E; [apply Z.eqb_eq in E; exfalso; auto|].
    rewrite IH; auto.
Qed.

Lemma frequency_snoc (l : list Z) (x v : Z) :
  frequency (l ++ [x]) v
  = (frequency l v + (if Z.eqb x v then 1 else 0))%nat.
Proof.
  unfold frequency. rewrite count_occ_app. simpl.
  destruct (Z.eq_dec x v) as [->|N].
  - rewrite Z.eqb_refl. reflexivity.
  - apply Z.eqb_neq in N. rewrite N. reflexivity.
Qed.

Lemma frequency_pos (l : list Z) (v : Z) : In v l <-> (0 < frequency l v)%nat.
Proof. unfold frequency. apply count_occ_In. Qed.

Lemma Counter_snoc (l : list Z) (x : Z) :
  Counter (l ++ [x])
  = dict_set Z.eqb (Counter l) x (dict_get Z.eqb (Counter l) x 0 + 1).
Proof. unfold Counter. rewrite fold_left_app. reflexivity. Qed.

Lemma StronglySorted_on {A} (R R' : A -> A -> Prop) (l : list A) :
  (forall a b, In a l -> In b l -> R a b -> R' a b) ->
  StronglySorted R l -> StronglySorted R' l.
Proof.
  intros H S. induction S as [|a l S IH F]; constructor.
  - apply IH. intros; apply H; simpl; auto.
  - rewrite Forall_forall in *. intros b Hb. apply H; simpl; auto.
Qed.

Lemma StronglySorted_snoc {A} (R : A -> A -> Prop) (l : list A) (x : A) :
  StronglySorted R l -> (forall a, In a l -> R a x) ->
  StronglySorted R (l ++ [x]).
Proof.
  intros S H. induction S as [|a l S IH F]; simpl.
  - repeat constructor.
  - constructor.
    + apply IH. intros; apply H; simpl; auto.
    + apply Forall_app. split; [exact F|]. constructor; [|constructor].
      apply H. simpl. auto.
Qed.

(** What [Counter] holds: one entry per distinct value, with its frequency,
    the values in the order of their first occurrence. *)
Lemma Counter_spec (l : list Z) :
  NoDup (keys (Counter l))
  /\ (forall v, In v (keys (Counter l)) <-> In v l)
  /\ (forall v, In v l ->
        dict_lookup Z.eqb (Counter l) v = Some (Z.of_nat (frequency l v)))
  /\ StronglySorted (first_seen_before l) (keys (Counter l)).
Proof.
  induction l as [|x l IH] using rev_ind.
  - simpl. repeat split; try constructor; intros; contradiction.
  - destruct IH as (ND & KI & LK & SS).
    rewrite Counter_snoc.
    destruct (in_dec Z.eq_dec x l) as [I|NI].
    + (* x was seen before: its entry is updated in place *)
      assert (IK : In x (keys (Counter l))) by (apply KI, I).
      assert (KE : keys (dict_set Z.eqb (Counter l) x
                         (dict_get Z.eqb (Counter l) x 0 + 1))
                   = keys (Counter l))
        by (apply (dict_set_keys_present Z.eqb Z.eqb_eq); exact IK).
      rewrite KE. split; [exact ND|]. split; [|split].
      * intro v. rewrite KI, in_app_iff. simpl. intuition (subst; auto).
      * intros v Hv. destruct (Z.eq_dec v x) as [->|N].
        -- rewrite (dict_lookup_set_same Z.eqb Z.eqb_eq).
           unfold dict_get. rewrite (LK x I), frequency_snoc, Z.eqb_refl.
           f_equal. lia.
        -- rewrite (dict_lookup_set_other Z.eqb Z.eqb_eq) by exact N.
           rewrite frequency_snoc.
           assert (E : (x =? v) = false) by (apply Z.eqb_neq; auto).
           rewrite E, Nat.add_0_r.
           destruct (in_dec Z.eq_dec v l) as [Iv|Nv]; [apply LK, Iv|].
           (* v is neither x nor in l: impossible *)
           exfalso. apply in_app_iff in Hv.
           destruct Hv as [Hv|[Hv|[]]]; auto.
      * eapply StronglySorted_on; [|exact SS].
        intros a b Ha Hb. unfold first_seen_before.
        rewrite !index_of_app_in by (apply KI; assumption). auto.
    + (* x is new: its entry goes last *)
      assert (LN : dict_lookup Z.eqb (Counter l) x = None).
      { apply (dict_lookup_none Z.eqb Z.eqb_eq). rewrite KI. exact NI. }
      unfold dict_get. rewrite LN.
      rewrite (dict_set_absent Z.eqb) by exact LN.
      unfold keys. rewrite map_app. simpl map. fold (keys (Counter l)).
      split; [|split; [|split]].
      * apply NoDup_app; [exact ND | repeat constructor; intros [] |].
        intros a Ha [Hx|[]]. subst. apply KI in Ha. contradiction.
      * intro v. rewrite !in_app_iff, KI. reflexivity.
      * intros v Hv. rewrite frequency_snoc.
        destruct (Z.eq_dec v x) as [->|N].
        -- rewrite (dict_lookup_app_last Z.eqb Z.eqb_eq) by exact LN.
           rewrite Z.eqb_refl.
           assert (frequency l x = 0)%nat
             by (unfold frequency; apply count_occ_not_In; exact NI).
           f_equal. lia.
        -- assert (E : (x =? v) = false) by (apply Z.eqb_neq; auto).
           rewrite E, Nat.add_0_r.
           apply in_app_iff in Hv. destruct Hv as [Hv|[Hv|[]]]; [|congruence].
           rewrite <- (dict_set_absent Z.eqb _ _ (0 + 1) LN).
           rewrite (dict_lookup_set_other Z.eqb Z.eqb_eq) by exact N.
           apply LK, Hv.
      * apply StronglySorted_snoc.
        -- eapply StronglySorted_on; [|exact SS].
           intros a b Ha Hb. unfold first_seen_before.
           rewrite !index_of_app_in by (apply KI; assumption). auto.
        -- intros a Ha. unfold first_seen_before. apply KI in Ha.
           rewrite index_of_app_in by exact Ha.
           rewrite index_of_new by exact NI. apply index_of_lt, Ha.
Qed.

(** [max] with a key keeps the first of the items with the greatest key. *)
Lemma fold_best_spec (r : list (Z * Z)) :
  forall (pre : list (Z * Z)) (best : Z * Z) (mid : list (Z * Z)),
    Forall (fun it => snd it < snd best) pre ->
    Forall (fun it => snd it <= snd best) mid ->
    exists pre' b' post',
      pre ++ best :: mid ++ r = pre' ++ b' :: post'
      /\ fold_left (fun b x => if snd b <? snd x then x else b) r best = b'
      /\ Forall (fun it => snd it < snd b') pre'
      /\ Forall (fun it => snd it <= snd b') post'.
Proof.
  induction r as [|x r IH]; intros pre best mid Hpre Hmid.
  - exists pre, best, mid. rewrite app_nil_r. auto.
  - simpl fold_left. destruct (snd best <? snd x) eqn:E.
    + apply Z.ltb_lt in E.
      destruct (IH (pre ++ best :: mid) x []) as (p & b & q & EQ & F & P & Q).
      * apply Forall_app. split.
        -- eapply Forall_impl; [|exact Hpre]. simpl. intros; lia.
        -- constructor; [exact E|].
           eapply Forall_impl; [|exact Hmid]. simpl. intros; lia.
      * constructor.
      * exists p, b, q. split; [|auto].
        rewrite <- EQ. rewrite <- app_assoc. reflexivity.
    + apply Z.ltb_ge in E.
      destruct (IH pre best (mid ++ [x])) as (p & b & q & EQ & F & P & Q).
      * exact Hpre.
      * apply Forall_app. split; [exact Hmid|]. constructor; [exact E|constructor].
      * exists p, b, q. split; [|auto].
        rewrite <- EQ. rewrite <- app_assoc. reflexivity.
Qed.

Lemma max_by_count_spec (items : list (Z * Z)) :
  items <> [] ->
  exists pre best post,
    items = pre ++ best :: post
    /\ max_by_count items = Some best
    /\ Forall (fun it => snd it < snd best) pre
    /\ Forall (fun it => snd it <= snd best) post.
Proof.
  destruct items as [|it r]; [congruence|]. intros _.
  destruct (fold_best_spec r [] it []) as (p & b & q & EQ & F & P & Q);
    [constructor | constructor |].
  exists p, b, q. simpl in EQ. unfold max_by_count. rewrite F. auto.
Qed.

Lemma StronglySorted_app_inv {A} (R : A -> A -> Prop) (l1 l2 : list A) (x : A) :
  StronglySorted R (l1 ++ x :: l2) -> Forall (R x) l2.
Proof.
  induction l1 as [|a l1 IH]; simpl; intro S; inversion S; subst; auto.
Qed.

(** The value that [check_frequency_distribution] returns on a non-empty
    sample: a most frequent one, and the first to occur among those. *)
Lemma most_frequent_first (data : list Z) (count : Z) :
  data <> [] ->
  exists m : Z,
    check_frequency_distribution data count = Ok (count =? m, m)
    /\ In m data
    /\ (forall v, (frequency data v <= frequency data m)%nat)
    /\ (forall v, v <> m -> frequency data v = frequency data m ->
                  first_seen_before data m v).
Proof.
  intro NE.
  destruct (Counter_spec data) as (ND & KI & LK & SS).
  assert (CNE : Counter data <> []).
  { destruct data as [|x l]; [congruence|].
    intro E. assert (H : In x (keys (Counter (x :: l)))) by (apply KI; simpl; auto).
    rewrite E in H. exact H. }
  destruct (max_by_count_spec (Counter data) CNE)
    as (pre & [m cm] & post & EQ & MX & P & Q).
  assert (Im : In m data).
  { apply KI. rewrite EQ. unfold keys. rewrite map_app. apply in_app_iff.
    right. simpl. auto. }
  assert (Cm : cm = Z.of_nat (frequency data m)).
  { pose proof (LK m Im) as L.
    rewrite (dict_in_lookup Z.eqb Z.eqb_eq (Counter data) m cm ND) in L.
    - congruence.
    - rewrite EQ. apply in_app_iff. right. simpl. auto. }
  assert (Entry : forall v, In v data ->
            In (v, Z.of_nat (frequency data v)) (pre ++ (m, cm) :: post)).
  { intros v Hv. rewrite <- EQ.
    apply (dict_lookup_in Z.eqb Z.eqb_eq). apply LK, Hv. }
  exists m. split; [|split; [exact Im|split]].
  - unfold check_frequency_distribution, most_common_1. rewrite MX. reflexivity.
  - intro v. destruct (in_dec Z.eq_dec v data) as [Hv|Hv].
    + specialize (Entry v Hv). rewrite Forall_forall in P, Q.
      apply in_app_iff in Entry. destruct Entry as [H|[H|H]].
      * apply P in H. simpl in H. lia.
      * injection H as -> _. lia.
      * apply Q in H. simpl in H. lia.
    + unfold frequency at 1. rewrite (count_occ_not_In Z.eq_dec data v) in Hv.
      rewrite Hv. lia.
  - intros v NV FE.
    assert (Hv : In v data).
    { apply frequency_pos. rewrite FE. apply frequency_pos, Im. }
    specialize (Entry v Hv). rewrite Forall_forall in P.
    apply in_app_iff in Entry. destruct Entry as [H|[H|H]].
    + apply P in H. simpl in H. lia.
    + injection H as -> _. congruence.
    + rewrite EQ in SS. unfold keys in SS. rewrite map_app in SS. simpl in SS.
      apply StronglySorted_app_inv in SS. rewrite Forall_forall in SS.
      apply SS. change v with (fst (v, Z.of_nat (frequency data v))).
      apply in_map, H.
Qed.


(** C8.  On a non-empty sample, [check_frequency_distribution data count]
    returns the pair of a flag and of a value [m] of the sample that no
    value occurs more often than; among the values as frequent as [m], [m]
    is the one that occurs first in the sample; the flag tells whether
    [count] is [m].  On [[3; 3; 5; 5; 5]] the value is 5: the flag is true
    for the count 5 and false for the count 3. *)
Theorem mode_match_spec (data : list Z) (count : Z) :
  (data <> [] ->
   exists m : Z,
     check_frequency_distribution data count = Ok (count =? m, m)
     /\ In m data
     /\ (forall v, (frequency data v <= frequency data m)%nat)
     /\ (forall v, v <> m -> frequency data v = frequency data m ->
                   first_seen_before data m v))
  /\ check_frequency_distribution [3; 3; 5; 5; 5] 5 = Ok (true, 5)
  /\ check_frequency_distribution [3; 3; 5; 5; 5] 3 = Ok (false, 5).
Proof.
  split; [apply most_frequent_first | split; reflexivity].
Qed.

(** C8 on a sample with a tie: 1 and 2 both occur twice in [[1; 2; 2; 1]],
    and 1, which occurs first, is the value returned. *)
Lemma mode_match_spec_witness :
  exists m : Z,
    check_frequency_distribution [1; 2; 2; 1] 2 = Ok (2 =? m, m)
    /\ In m [1; 2; 2; 1]
    /\ (forall v, Nat.le (frequency [1; 2; 2; 1] v) (frequency [1; 2; 2; 1] m))
    /\ (forall v, v <> m -> frequency [1; 2; 2; 1] v = frequency [1; 2; 2; 1] m ->
                  first_seen_before [1; 2; 2; 1] m v).
Proof.
  apply (proj1 (mode_match_spec [1; 2; 2; 1] 2)). discriminate.
Defined.

(** ** The analysis chosen by the coefficient of variation (C5) *)

Lemma sqrt_gt_iff (v a : R) :
  (0 <= v)%R -> (0 <= a)%R -> (a < sqrt v <-> a * a < v)%R.
Proof.
  intros Hv Ha. split; intro H.
  - rewrite <- (sqrt_sqrt v Hv).
    apply Rmult_le_0_lt_compat; assumption.
  - apply Rnot_le_lt. intro L.
    assert (sqrt v * sqrt v <= a * a)%R.
    { apply Rmult_le_compat; try apply sqrt_pos; assumption. }
    rewrite (sqrt_sqrt v Hv) in H0. lra.
Qed.

Lemma squared_deviations_nonneg (data : list Z) (m : Q) :
  (0 <= Qsum (map (fun x => (inject_Z x - m) * (inject_Z x - m)) data))%Q.
Proof.
  induction data as [|x l IH]; simpl; [discriminate|].
  assert (0 <= (inject_Z x - m) * (inject_Z x - m))%Q as SQ;
    [|exact (Qplus_le_compat 0 _ 0 _ SQ IH)].
  destruct (Qlt_le_dec (inject_Z x - m) 0) as [N|P].
  - setoid_replace ((inject_Z x - m) * (inject_Z x - m))%Q
      with ((- (inject_Z x - m)) * (- (inject_Z x - m)))%Q by ring.
    assert (0 <= - (inject_Z x - m))%Q
      by (apply Qlt_le_weak, Qopp_le_compat in N; exact N).
    apply Qmult_le_0_compat; assumption.
  - apply Qmult_le_0_compat; assumption.
Qed.

Lemma statistics_variance_nonneg (data : list Z) :
  (0 <= statistics_variance data)%Q.
Proof.
  rewrite statistics_variance_sample. unfold sample_variance. cbv zeta.
  pose proof (squared_deviations_nonneg data (statistics_mean data)) as S.
  destruct data as [|x l]; [vm_compute; discriminate|].
  unfold Qdiv. apply Qmult_le_0_compat; [exact S|].
  apply Qinv_le_0_compat. rewrite len_cons.
  pose proof (len_nonneg l). change 0%Q with (inject_Z 0).
  rewrite <- Zle_Qle. lia.
Qed.

(** The comparison of the coefficient of variation with 0.2, in exact
    arithmetic. *)
Lemma high_variation_spec (data : list Z) :
  (calculate_coefficient_of_variation data > 2 / 10)%R
  <-> high_variation data = true.
Proof.
  unfold calculate_coefficient_of_variation, high_variation.
  destruct (len data <? 2) eqn:L.
  - apply Z.ltb_lt in L.
    assert (E : (2 <=? len data) = false) by (apply Z.leb_gt; exact L).
    rewrite E. simpl. split; [intro; lra | discriminate].
  - apply Z.ltb_ge in L.
    assert (E : (2 <=? len data) = true) by (apply Z.leb_le; exact L).
    rewrite E. simpl andb. cbv zeta.
    set (m := statistics_mean data). set (v := statistics_variance data).
    pose proof (statistics_variance_nonneg data) as Vq. fold v in Vq.
    assert (V : (0 <= Q2R v)%R).
    { apply Qle_Rle in Vq. rewrite RMicromega.Q2R_0 in Vq. exact Vq. }
    unfold statistics_stdev. fold v.
    destruct (Qeq_bool m 0) eqn:Z0.
    + apply Qeq_bool_iff in Z0.
      assert (F : Qltb 0 m = false).
      { apply Qltb_false. rewrite Z0. apply Qlt_irrefl. }
      rewrite F. simpl. split; [intro; lra | discriminate].
    + assert (NZ : ~ (m == 0)%Q).
      { intro H. apply Qeq_bool_iff in H. congruence. }
      destruct (Qltb 0 m) eqn:P; simpl andb.
      * apply Qltb_spec in P.
        assert (Pr : (0 < Q2R m)%R).
        { apply Qlt_Rlt in P. rewrite RMicromega.Q2R_0 in P. exact P. }
        rewrite Qltb_spec.
        assert (T : (Q2R (m * m) < Q2R (25 * v) <-> (Q2R m / 5) * (Q2R m / 5) < Q2R v)%R).
        { rewrite !Q2R_mult.
          replace (Q2R 25) with 25%R by (unfold Q2R; simpl; lra).
          split; intro; lra. }
        split.
        -- intro H. apply Rlt_Qlt. apply T.
           apply sqrt_gt_iff; [exact V | lra |].
           unfold Rgt in H.
           apply (Rmult_lt_compat_r (Q2R m)) in H; [|exact Pr].
           unfold Rdiv in H at 2. rewrite Rmult_assoc, Rinv_l in H by lra.
           lra.
        -- intro H. apply Qlt_Rlt in H. apply T in H.
           apply sqrt_gt_iff in H; [| exact V | lra].
           unfold Rgt. apply (Rmult_lt_reg_r (Q2R m)); [exact Pr|].
           unfold Rdiv at 2. rewrite Rmult_assoc, Rinv_l by lra. lra.
      * apply Qltb_false in P.
        assert (Ng : (Q2R m < 0)%R).
        { assert (m < 0)%Q.
          { apply Qnot_le_lt. intro H. apply Qle_lt_or_eq in H.
            destruct H as [H|H]; [contradiction|]. apply NZ. symmetry. exact H. }
          apply Qlt_Rlt in H. rewrite RMicromega.Q2R_0 in H. exact H. }
        split; [|discriminate]. intro H. exfalso.
        pose proof (sqrt_pos (Q2R v)) as SP.
        assert (sqrt (Q2R v) / Q2R m <= 0)%R.
        { unfold Rdiv. 
          assert (/ Q2R m < 0)%R by (apply Rinv_lt_0_compat; exact Ng).
          nra. }
        lra.
Qed.





(** With a high variation, a count above the third quartile is reported as
    within the interquartile range: the sample [[1; 2; 10; 20]] has the
    quartiles 1.75 and 12.5, and the count is 30. *)
Example secondary_analysis_above_third_quartile :
  exists q1 q3 : Q,
    (q1 == 175 # 100)%Q /\ (q3 == 125 # 10)%Q /\ (q3 < inject_Z 30)%Q
    /\ secondary_analysis [1; 2; 10; 20] 30 quiet_world
       = (Ok tt, add_dialog (showinfo_result (WithinInterquartileRange q1 q3))
                   quiet_world).
Proof.
  eexists _, _. split; [|split; [|split]]; cycle 3.
  - unfold secondary_analysis.
    change (0 <? len [1; 2; 10; 20]) with true. cbv iota.
    destruct (Rgt_dec _ _) as [_|N].
    + reflexivity.
    + exfalso. apply N. apply high_variation_spec. reflexivity.
  - reflexivity.
  - reflexivity.
  - reflexivity.
Qed.

(** With a low variation the count is compared with the most frequent value:
    in [[9; 10; 11; 10]] that is 10. *)
Example secondary_analysis_low_variation :
  secondary_analysis [9; 10; 11; 10] 10 quiet_world
  = (Ok tt, add_dialog (showinfo_result (MatchesMostFrequent 10)) quiet_world).
Proof.
  unfold secondary_analysis.
  change (0 <? len [9; 10; 11; 10]) with true. cbv iota.
  destruct (Rgt_dec _ _) as [Y|_].
  - apply high_variation_spec in Y. discriminate Y.
  - reflexivity.
Qed.

(** ** The calendar *)

Ltac month_cases m :=
  let H := fresh "Hm" in
  assert (H : m = 1 \/ m = 2 \/ m = 3 \/ m = 4 \/ m = 5 \/ m = 6 \/ m = 7
              \/ m = 8 \/ m = 9 \/ m = 10 \/ m = 11 \/ m = 12) by lia;
  repeat (destruct H as [H|H]); subst m.

Ltac eval_tables :=
  repeat match goal with
         | |- context [table ?t ?k] =>
             let v := eval vm_compute in (table t k) in
             change (table t k) with v
         | H : context [table ?t ?k] |- _ =>
             let v := eval vm_compute in (table t k) in
             change (table t k) with v in H
         end.

Ltac eval_tests :=
  repeat match goal with
         | |- context [Z.eqb (Z.pos ?p) (Z.pos ?q)] =>
             let v := eval vm_compute in (Z.eqb (Z.pos p) (Z.pos q)) in
             change (Z.eqb (Z.pos p) (Z.pos q)) with v
         | |- context [Z.ltb (Z.pos ?p) (Z.pos ?q)] =>
             let v := eval vm_compute in (Z.ltb (Z.pos p) (Z.pos q)) in
             change (Z.ltb (Z.pos p) (Z.pos q)) with v
         | H : context [Z.eqb (Z.pos ?p) (Z.pos ?q)] |- _ =>
             let v := eval vm_compute in (Z.eqb (Z.pos p) (Z.pos q)) in
             change (Z.eqb (Z.pos p) (Z.pos q)) with v in H
         | H : context [Z.ltb (Z.pos ?p) (Z.pos ?q)] |- _ =>
             let v := eval vm_compute in (Z.ltb (Z.pos p) (Z.pos q)) in
             change (Z.ltb (Z.pos p) (Z.pos q)) with v in H
         end;
  cbn [andb] in *.

Lemma date_ok_spec (d : date) :
  date_ok d = true <->
  1 <= year d <= 9999 /\ 1 <= month d <= 12
  /\ 1 <= day d <= days_in_month (year d) (month d).
Proof.
  unfold date_ok, MINYEAR, MAXYEAR.
  rewrite !andb_true_iff, !Z.leb_le. tauto.
Qed.

Lemma date_eqb_eq (a b : date) : date_eqb a b = true <-> a = b.
Proof.
  unfold date_eqb. rewrite !andb_true_iff, !Z.eqb_eq.
  destruct a, b; simpl. split.
  - intros [[-> ->] ->]. reflexivity.
  - intro H. injection H as -> -> ->. auto.
Qed.

Lemma days_before_year_succ (y : Z) :
  days_before_year (y + 1)
  = days_before_year y + (if is_leap y then 366 else 365).
Proof.
  unfold days_before_year, is_leap. cbv zeta.
  replace (y + 1 - 1) with y by lia.
  destruct (y mod 4 =? 0) eqn:E4; destruct (y mod 100 =? 0) eqn:E100;
    destruct (y mod 400 =? 0) eqn:E400; simpl;
    rewrite ?Z.eqb_eq, ?Z.eqb_neq in *; Z.div_mod_to_equations; lia.
Qed.

Lemma days_before_year_mono (u v : Z) :
  u <= v -> days_before_year u <= days_before_year v.
Proof. unfold days_before_year. cbv zeta. Z.div_mod_to_equations. lia. Qed.

(** The days of a year up to a day of one of its months. *)
Lemma day_of_year_bounds (y m d : Z) :
  1 <= m <= 12 -> 1 <= d <= days_in_month y m ->
  1 <= days_before_month y m + d <= (if is_leap y then 366 else 365).
Proof.
  intros Hm Hd. unfold days_in_month, days_before_month in *.
  destruct (is_leap y); month_cases m; eval_tables; eval_tests; lia.
Qed.

Lemma days_before_month_next (y m m' : Z) :
  1 <= m -> m < m' -> m' <= 12 ->
  days_before_month y m + days_in_month y m <= days_before_month y m'.
Proof.
  intros H1 H2 H3. unfold days_in_month, days_before_month.
  destruct (is_leap y); month_cases m; month_cases m';
    eval_tables; eval_tests; lia.
Qed.

(** The ordinal of a date lies in the range of [date]. *)
Lemma toordinal_bounds (d : date) :
  date_ok d = true -> 1 <= toordinal d <= MAXORDINAL.
Proof.
  intro H. apply date_ok_spec in H. destruct H as (Hy & Hm & Hd).
  unfold toordinal, ymd2ord, MAXORDINAL.
  pose proof (day_of_year_bounds _ _ _ Hm Hd) as B.
  pose proof (days_before_year_succ (year d)) as S.
  pose proof (days_before_year_mono 1 (year d) ltac:(lia)) as L.
  pose proof (days_before_year_mono (year d + 1) 10000 ltac:(lia)) as U.
  change (days_before_year 1) with 0 in L.
  change (days_before_year 10000) with 3652059 in U.
  destruct (is_leap (year d)); lia.
Qed.

(** The ordinal grows with the date. *)
Lemma toordinal_lt (a b : date) :
  date_ok a = true -> date_ok b = true -> date_lt a b ->
  toordinal a < toordinal b.
Proof.
  intros Ha Hb L. apply date_ok_spec in Ha, Hb.
  destruct Ha as (Hya & Hma & Hda), Hb as (Hyb & Hmb & Hdb).
  unfold toordinal, ymd2ord.
  pose proof (day_of_year_bounds _ _ _ Hma Hda) as Ba.
  pose proof (day_of_year_bounds _ _ _ Hmb Hdb) as Bb.
  destruct L as [L|[E [L|[E' L]]]].
  - pose proof (days_before_year_succ (year a)) as S.
    pose proof (days_before_year_mono (year a + 1) (year b) ltac:(lia)) as M.
    destruct (is_leap (year a)); lia.
  - rewrite E in *.
    pose proof (days_before_month_next (year b) (month a) (month b)
                  ltac:(lia) L ltac:(lia)).
    lia.
  - rewrite E, E'. lia.
Qed.

Lemma date_lt_total (a b : date) : date_lt a b \/ a = b \/ date_lt b a.
Proof.
  unfold date_lt. destruct a as [ya ma da], b as [yb mb db]. simpl.
  destruct (Z.lt_total ya yb) as [H|[H|H]]; [auto | subst | auto].
  destruct (Z.lt_total ma mb) as [H|[H|H]]; [auto | subst | auto 6].
  destruct (Z.lt_total da db) as [H|[H|H]]; [auto 6 | subst; auto | auto 8].
Qed.

Lemma toordinal_inj (a b : date) :
  date_ok a = true -> date_ok b = true -> toordinal a = toordinal b -> a = b.
Proof.
  intros Ha Hb E. destruct (date_lt_total a b) as [L|[L|L]]; [|exact L|].
  - pose proof (toordinal_lt a b Ha Hb L). lia.
  - pose proof (toordinal_lt b a Hb Ha L). lia.
Qed.


Lemma forallb_range (P : Z -> bool) (k : nat) :
  forallb P (map Z.of_nat (seq 0 k)) = true ->
  forall n, 0 <= n < Z.of_nat k -> P n = true.
Proof.
  intros H n Hn. rewrite forallb_forall in H. apply H.
  replace n with (Z.of_nat (Z.to_nat n)) by lia.
  apply in_map, in_seq. lia.
Qed.

Lemma month_day_of_ok (leapyear : bool) (n : Z) :
  0 <= n < 365 -> month_day_ok leapyear n = true.
Proof.
  intro H. destruct leapyear.
  - apply (forallb_range (month_day_ok true) 365); [vm_compute; reflexivity | lia].
  - apply (forallb_range (month_day_ok false) 365); [vm_compute; reflexivity | lia].
Qed.

(** The days before a year counted in cycles of 400, 100, 4 and 1 years. *)
Lemma days_before_year_cycles (q c f o : Z) :
  0 <= c <= 3 -> 0 <= f <= 24 -> 0 <= o <= 3 ->
  days_before_year (q * 400 + 1 + c * 100 + f * 4 + o)
  = q * 146097 + c * 36524 + f * 1461 + o * 365.
Proof.
  intros Hc Hf Ho. unfold days_before_year. cbv zeta.
  Z.div_mod_to_equations. lia.
Qed.

Lemma is_leap_cycles (q c f o : Z) :
  0 <= c <= 3 -> 0 <= f <= 24 -> 0 <= o <= 3 ->
  is_leap (q * 400 + 1 + c * 100 + f * 4 + o)
  = (o =? 3) && (negb (f =? 24) || (c =? 3)).
Proof.
  intros Hc Hf Ho. unfold is_leap.
  destruct (o =? 3) eqn:Eo; destruct (f =? 24) eqn:Ef; destruct (c =? 3) eqn:Ec;
    rewrite ?Z.eqb_eq, ?Z.eqb_neq in *; simpl;
    rewrite ?andb_true_iff, ?andb_false_iff, ?orb_true_iff, ?orb_false_iff,
      ?negb_true_iff, ?negb_false_iff, ?Z.eqb_eq, ?Z.eqb_neq;
    Z.div_mod_to_equations; lia.
Qed.

(** [ord2ymd] in terms of [month_day_of]. *)
Lemma ord2ymd_unfold (n : Z) :
  let n0 := n - 1 in
  let q := n0 / DI400Y in
  let r := n0 mod DI400Y in
  let c := r / DI100Y in
  let rc := r mod DI100Y in
  let f := rc / DI4Y in
  let rf := rc mod DI4Y in
  let o := rf / 365 in
  let ro := rf mod 365 in
  let y := q * 400 + 1 + c * 100 + f * 4 + o in
  ord2ymd n =
    if (o =? 4) || (c =? 4) then mkdate (y - 1) 12 31
    else
      let md := month_day_of ((o =? 3) && (negb (f =? 24) || (c =? 3))) ro in
      mkdate y (fst md) (snd md).
Proof.
  cbv zeta. unfold ord2ymd, month_day_of. cbv zeta.
  destruct (_ || _); [reflexivity|].
  match goal with |- context [if ?b then _ else _] => destruct b end;
    reflexivity.
Qed.

(** [ord2ymd] yields a date, and the date of the given ordinal. *)
Lemma ord2ymd_spec (n : Z) :
  1 <= n <= MAXORDINAL ->
  date_ok (ord2ymd n) = true /\ toordinal (ord2ymd n) = n.
Proof.
  unfold MAXORDINAL. intro Hn.
  rewrite ord2ymd_unfold. cbv zeta. unfold DI400Y, DI100Y, DI4Y.
  pose proof (Z.div_mod (n - 1) 146097 ltac:(lia)) as E1.
  pose proof (Z.mod_pos_bound (n - 1) 146097 ltac:(lia)) as B1.
  set (q := (n - 1) / 146097) in *. set (r := (n - 1) mod 146097) in *.
  pose proof (Z.div_mod r 36524 ltac:(lia)) as E2.
  pose proof (Z.mod_pos_bound r 36524 ltac:(lia)) as B2.
  set (c := r / 36524) in *. set (rc := r mod 36524) in *.
  pose proof (Z.div_mod rc 1461 ltac:(lia)) as E3.
  pose proof (Z.mod_pos_bound rc 1461 ltac:(lia)) as B3.
  set (f := rc / 1461) in *. set (rf := rc mod 1461) in *.
  pose proof (Z.div_mod rf 365 ltac:(lia)) as E4.
  pose proof (Z.mod_pos_bound rf 365 ltac:(lia)) as B4.
  set (o := rf / 365) in *. set (ro := rf mod 365) in *.
  assert (Hq : 0 <= q <= 24) by lia.
  assert (Hc : 0 <= c <= 4) by lia.
  assert (Hf : 0 <= f <= 24) by lia.
  assert (Ho : 0 <= o <= 4) by lia.
  destruct ((o =? 4) || (c =? 4)) eqn:Last.
  - (* the last day of a leap year *)
    apply orb_true_iff in Last. rewrite !Z.eqb_eq in Last.
    assert (Y : exists q' c' f',
               0 <= c' <= 3 /\ 0 <= f' <= 24
               /\ q * 400 + 1 + c * 100 + f * 4 + o - 1
                  = q' * 400 + 1 + c' * 100 + f' * 4 + 3
               /\ (f' <> 24 \/ c' = 3)
               /\ n = q' * 146097 + c' * 36524 + f' * 1461 + 3 * 365 + 366
               /\ q' <= 24).
    { destruct Last as [L|L].
      - exists q, c, f. lia.
      - exists q, 3, 24. lia. }
    destruct Y as (q' & c' & f' & Hc' & Hf' & -> & LY & EN & Hq').
    assert (Leap : is_leap (q' * 400 + 1 + c' * 100 + f' * 4 + 3) = true).
    { rewrite is_leap_cycles by lia. simpl.
      destruct LY as [LY| ->].
      - apply Z.eqb_neq in LY. rewrite LY. reflexivity.
      - rewrite Z.eqb_refl. apply orb_true_r. }
    split.
    + apply date_ok_spec. cbn [year month day]. unfold days_in_month.
      eval_tables. eval_tests. lia.
    + unfold toordinal, ymd2ord, days_before_month. cbn [year month day].
      rewrite Leap, days_before_year_cycles by lia.
      eval_tables. eval_tests. lia.
  - apply orb_false_iff in Last. rewrite !Z.eqb_neq in Last.
    destruct Last as [No Nc].
    set (leap := (o =? 3) && (negb (f =? 24) || (c =? 3))).
    pose proof (month_day_of_ok leap ro B4) as MD.
    unfold month_day_ok in MD.
    destruct (month_day_of leap ro) as [m d]. simpl fst. simpl snd.
    rewrite !andb_true_iff, !Z.leb_le, Z.eqb_eq in MD.
    destruct MD as ((((M1 & M2) & D1) & D2) & S).
    assert (Leap : is_leap (q * 400 + 1 + c * 100 + f * 4 + o) = leap)
      by (apply is_leap_cycles; lia).
    split.
    + apply date_ok_spec. cbn [year month day]. unfold days_in_month.
      rewrite Leap. lia.
    + unfold toordinal, ymd2ord, days_before_month. cbn [year month day].
      rewrite Leap, days_before_year_cycles by lia. lia.
Qed.

(** The date of the ordinal of a date is that date. *)
Lemma ord2ymd_toordinal (d : date) :
  date_ok d = true -> ord2ymd (toordinal d) = d.
Proof.
  intro H. pose proof (toordinal_bounds d H) as B.
  destruct (ord2ymd_spec (toordinal d) B) as [V E].
  apply toordinal_inj; assumption.
Qed.

(** ** Read-only operations (C10) *)

Lemma read_only_ret {A} (a : A) (w : World) : read_only (ret a) w.
Proof. reflexivity. Qed.

Lemma read_only_lift {A} (r : result A) (w : World) : read_only (lift r) w.
Proof. reflexivity. Qed.

Lemma read_only_bind {A B} (m : M A) (k : A -> M B) (w : World) :
  read_only m w ->
  (forall a, fst (m w) = Ok a -> read_only (k a) w) ->
  read_only (bind m k) w.
Proof.
  unfold read_only, bind. intros Hm Hk.
  destruct (m w) as [[a|e] w'] eqn:E; simpl in Hm; subst w'.
  - apply Hk. reflexivity.
  - reflexivity.
Qed.

Lemma read_only_for_each {A S} (xs : list A) (body : A -> S -> M S) (w : World) :
  (forall x s, In x xs -> read_only (body x s) w) ->
  forall s, read_only (for_each xs body s) w.
Proof.
  induction xs as [|x xs IH]; intros H s; simpl.
  - apply read_only_ret.
  - apply read_only_bind.
    + apply H. simpl. auto.
    + intros s' _. apply IH. intros; apply H; simpl; auto.
Qed.

(** Indexing the store with a date it has does not change it. *)
Lemma hd_getitem_present (d : date) (w : World) :
  dict_contains date_eqb (historical_data w) d = true ->
  read_only (hd_getitem d) w.
Proof.
  unfold dict_contains, read_only, hd_getitem.
  destruct (dict_lookup date_eqb (historical_data w) d); [reflexivity|discriminate].
Qed.

Lemma calculate_weekday_averages_read_only (diary : str) (w : World) :
  read_only (calculate_weekday_averages diary) w.
Proof.
  unfold calculate_weekday_averages.
  apply read_only_bind; [reflexivity|]. intros today _.
  apply read_only_bind; [apply read_only_lift|]. intros six_months_ago _.
  apply read_only_bind; [reflexivity|]. intros items _.
  apply read_only_bind; [|intros; apply read_only_ret].
  apply read_only_for_each. intros [d diaries] acc _.
  destruct (_ && _); [|apply read_only_ret].
  apply read_only_bind; [apply read_only_lift|]. intros; apply read_only_ret.
Qed.

Lemma get_last_week_summary_read_only (d : date) (diary : str) (w : World) :
  read_only (get_last_week_summary d diary) w.
Proof.
  unfold get_last_week_summary.
  apply read_only_for_each. intros i acc _.
  apply read_only_bind; [apply read_only_lift|]. intros day_i _.
  apply read_only_bind; [reflexivity|]. intros present P.
  simpl in P. injection P as P.
  apply read_only_bind; [|intros; apply read_only_ret].
  destruct present; [|apply read_only_ret].
  apply read_only_bind; [|intros; apply read_only_ret].
  apply hd_getitem_present. exact P.
Qed.

(** C10.  The three querying operations leave the world, and so the store,
    exactly as they found it, whether they return or raise: computing the
    weekday averages, the summary of the last week, and the classification
    of a count.  The summary indexes the store only with dates it has
    tested to be present, whereas indexing the [defaultdict] with an absent
    date would insert an empty sub-mapping for that date. *)
Theorem read_only_operations (w : World) :
  (forall diary, snd (calculate_weekday_averages diary w) = w)
  /\ (forall d diary, snd (get_last_week_summary d diary w) = w)
  /\ (forall today diary count,
        snd (check_article_count today diary count w) = w)
  /\ (forall d,
        dict_contains date_eqb (historical_data w) d = false ->
        historical_data (snd (hd_getitem d w)) = historical_data w ++ [(d, [])]).
Proof.
  split; [|split; [|split]].
  - intro diary. apply calculate_weekday_averages_read_only.
  - intros d diary. apply get_last_week_summary_read_only.
  - intros today diary count. unfold check_article_count.
    apply read_only_bind;
      [apply calculate_weekday_averages_read_only | intros; apply read_only_ret].
  - intros d H. unfold hd_getitem, dict_contains in *.
    destruct (dict_lookup date_eqb (historical_data w) d); [discriminate|].
    reflexivity.
Qed.

(** ** The summary of the last week (C9) *)

(** Going back [k] days from a date, within the calendar. *)
Lemma date_sub_days_spec (d : date) (k : Z) :
  date_ok d = true -> 0 <= k < toordinal d ->
  date_sub_days d k = Some (ord2ymd (toordinal d - k))
  /\ date_ok (ord2ymd (toordinal d - k)) = true
  /\ toordinal (ord2ymd (toordinal d - k)) = toordinal d - k.
Proof.
  intros V K. pose proof (toordinal_bounds d V) as B.
  unfold date_sub_days.
  assert (R : (0 <? toordinal d - k) && (toordinal d - k <=? MAXORDINAL) = true).
  { apply andb_true_iff. rewrite Z.ltb_lt, Z.leb_le. lia. }
  rewrite R. split; [reflexivity|]. apply ord2ymd_spec. lia.
Qed.

(** Before the minimum date there is nothing to go back to. *)
Lemma date_sub_days_overflow (d : date) (k : Z) :
  toordinal d <= k -> date_sub_days d k = None.
Proof.
  intro K. unfold date_sub_days.
  assert (R : (0 <? toordinal d - k) = false) by (apply Z.ltb_ge; lia).
  rewrite R. reflexivity.
Qed.

Lemma stored_count_get (h : Store) (d : date) (diary : str) :
  stored_count h d diary
  = match dict_lookup date_eqb h d with
    | Some sub => dict_get str_eqb sub diary 0
    | None => 0
    end.
Proof.
  unfold stored_count, store_lookup, dict_get.
  destruct (dict_lookup date_eqb h d); reflexivity.
Qed.

(** The loop of [get_last_week_summary] over a list of distinct offsets. *)
Lemma week_loop (d : date) (diary : str) (w : World) (offsets : list Z) :
  date_ok d = true ->
  (forall i, In i offsets -> 0 <= i < toordinal d) ->
  NoDup offsets ->
  forall acc : dict date Z,
    (forall i, In i offsets -> ~ In (ord2ymd (toordinal d - i)) (keys acc)) ->
    for_each offsets
      (fun i last_week_data =>
         day_i <- lift (of_option OverflowError (date_sub_days d i)) ;;
         present <- hd_contains day_i ;;
         v <- (if present
               then sub <- hd_getitem day_i ;; ret (dict_get str_eqb sub diary 0)
               else ret 0) ;;
         ret (dict_set date_eqb last_week_data day_i v))
      acc w
    = (Ok (acc
           ++ map (fun i =>
                     (ord2ymd (toordinal d - i),
                      stored_count (historical_data w)
                        (ord2ymd (toordinal d - i)) diary))
                offsets),
       w).
Proof.
  intros V R ND. induction offsets as [|i rest IH]; intros acc F.
  - simpl. rewrite app_nil_r. reflexivity.
  - inversion ND as [|? ? NI ND']; subst.
    destruct (date_sub_days_spec d i V (R i (or_introl eq_refl))) as (E & Vi & Oi).
    set (di := ord2ymd (toordinal d - i)) in *.
    assert (Body :
      (day_i <- lift (of_option OverflowError (date_sub_days d i)) ;;
       present <- hd_contains day_i ;;
       v <- (if present
             then sub <- hd_getitem day_i ;; ret (dict_get str_eqb sub diary 0)
             else ret 0) ;;
       ret (dict_set date_eqb acc day_i v)) w
      = (Ok (acc ++ [(di, stored_count (historical_data w) di diary)]), w)).
    { unfold bind, lift, hd_contains, hd_getitem, dict_contains, ret.
      rewrite E. simpl of_option. cbv iota beta.
      rewrite stored_count_get.
      assert (A : dict_lookup date_eqb acc di = None).
      { apply (dict_lookup_none date_eqb date_eqb_eq).
        apply F. simpl. auto. }
      destruct (dict_lookup date_eqb (historical_data w) di) as [sub|] eqn:L;
        cbv iota beta; rewrite ?L;
        rewrite (dict_set_absent date_eqb) by exact A; reflexivity. }
    change (for_each (i :: rest) ?body acc) with
      (bind (body i acc) (fun s' => for_each rest body s')).
    unfold bind at 1. cbv beta. rewrite Body.
    rewrite IH.
    + rewrite <- app_assoc. reflexivity.
    + intros; apply R; simpl; auto.
    + exact ND'.
    + intros j Hj. unfold keys. rewrite map_app, in_app_iff. simpl.
      intros [H|[H|[]]].
      * apply (F j); [simpl; auto | exact H].
      * assert (toordinal di = toordinal (ord2ymd (toordinal d - j)))
          by (rewrite H; reflexivity).
        destruct (date_sub_days_spec d j V (R j (or_intror Hj))) as (_ & _ & Oj).
        assert (i = j) by lia. subst. contradiction.
Qed.



(** C9, as the code has it.  For an end date that has six days before it in
    the calendar (its ordinal is 7 or more, that is 0001-01-07 or later),
    [get_last_week_summary] returns, without changing the world, exactly
    seven rows: the row of index [i] holds the date [i] days before the end
    date, the end date itself first, and the count stored for that date and
    the diary, 0 when there is none. *)
Theorem week_summary_spec (end_date : date) (diary : str) (w : World) :
  date_ok end_date = true -> 7 <= toordinal end_date ->
  exists rows : dict date Z,
    get_last_week_summary end_date diary w = (Ok rows, w)
    /\ length rows = 7%nat
    /\ nth_error rows 0
       = Some (end_date, stored_count (historical_data w) end_date diary)
    /\ (forall i : nat, (i < 7)%nat ->
        exists d : date,
          nth_error rows i = Some (d, stored_count (historical_data w) d diary)
          /\ date_ok d = true
          /\ toordinal d = toordinal end_date - Z.of_nat i).
Proof.
  intros V O. unfold get_last_week_summary.
  assert (R : forall i, In i (map Z.of_nat (seq 0 7)) -> 0 <= i < toordinal end_date).
  { intros i H. apply in_map_iff in H. destruct H as (k & <- & H).
    apply in_seq in H. lia. }
  rewrite (week_loop end_date diary w (map Z.of_nat (seq 0 7)) V R).
  - rewrite app_nil_l.
    eexists. split; [reflexivity|]. split; [reflexivity|]. split.
    + simpl. rewrite Z.sub_0_r, (ord2ymd_toordinal end_date V). reflexivity.
    + intros i Hi.
      exists (ord2ymd (toordinal end_date - Z.of_nat i)).
      destruct (date_sub_days_spec end_date (Z.of_nat i) V ltac:(lia))
        as (_ & Vi & Oi).
      split; [|split; assumption].
      rewrite !nth_error_map.
      assert (N : nth_error (seq 0 7) i = Some i).
      { clear -Hi. do 7 (destruct i as [|i]; [reflexivity|]). lia. }
      rewrite N. reflexivity.
  - simpl.
    repeat (constructor;
            [simpl; intro H;
             repeat (destruct H as [H|H]; [discriminate H|]); exact H|]).
    constructor.
  - intros i _ [].
Qed.

(** C9 on the week that ends on Monday 2024-01-08, in a world that stores
    nothing. *)
Lemma week_summary_spec_witness :
  exists rows : dict date Z,
    get_last_week_summary (mkdate 2024 1 8) (lit "X") quiet_world
    = (Ok rows, quiet_world)
    /\ length rows = 7%nat
    /\ nth_error rows 0
       = Some (mkdate 2024 1 8,
               stored_count (historical_data quiet_world) (mkdate 2024 1 8)
                 (lit "X"))
    /\ (forall i : nat, (i < 7)%nat ->
        exists d : date,
          nth_error rows i
          = Some (d, stored_count (historical_data quiet_world) d (lit "X"))
          /\ date_ok d = true
          /\ toordinal d = toordinal (mkdate 2024 1 8) - Z.of_nat i).
Proof.
  apply (week_summary_spec (mkdate 2024 1 8) (lit "X") quiet_world).
  - reflexivity.
  - vm_compute. discriminate.
Defined.

(** C9 as stated fails near the start of the calendar: 0001-01-03 has only
    two days before it, and the summary raises [OverflowError] when it
    reaches for the third. *)
Lemma week_summary_overflow :
  date_ok (mkdate 1 1 3) = true
  /\ get_last_week_summary (mkdate 1 1 3) (lit "X") quiet_world
     = (Raised OverflowError, quiet_world).
Proof. split; reflexivity. Qed.

(** ** The weekday averages (C2) *)

(** A loop whose body neither raises nor touches the world is a fold. *)
Lemma for_each_pure {A S} (xs : list A) (body : A -> S -> M S)
    (f : S -> A -> S) (w : World) :
  (forall x s, In x xs -> body x s w = (Ok (f s x), w)) ->
  forall s, for_each xs body s w = (Ok (fold_left f xs s), w).
Proof.
  induction xs as [|x xs IH]; intros H s; simpl; [reflexivity|].
  unfold bind. rewrite H by (simpl; auto).
  apply IH. intros; apply H; simpl; auto.
Qed.

Lemma weekday_body_pure (six_months_ago : date) (diary : str)
    (d : date) (diaries : dict str Z) (weekday_data : dict Z (list Z))
    (w : World) :
  (if date_ge d six_months_ago && dict_contains str_eqb diaries diary
   then
     count <- lift (getitem str_eqb diaries diary) ;;
     ret (defaultdict_append weekday_data (weekday d) count)
   else ret weekday_data) w
  = (Ok (weekday_step six_months_ago diary weekday_data (d, diaries)), w).
Proof.
  unfold weekday_step.
  destruct (date_ge d six_months_ago); simpl; [|reflexivity].
  unfold dict_contains, dict_get, bind, lift, getitem, ret.
  destruct (dict_lookup str_eqb diaries diary); reflexivity.
Qed.




(** Before 0001-06-30 the weekday averages always raise. *)
Lemma weekday_averages_early (diary : str) (w : World) :
  toordinal (clock w) <= 180 ->
  calculate_weekday_averages diary w = (Raised OverflowError, w).
Proof.
  intro O. unfold calculate_weekday_averages, bind, datetime_now_date, lift.
  rewrite (date_sub_days_overflow (clock w) 180 O). reflexivity.
Qed.




(** In the sample world the Mondays within the window average (5 + 8) / 2,
    the Tuesday has the average 2, and no other weekday has an entry; the
    Monday of 2023 is too old to count. *)
Example weekday_averages_sample :
  calculate_weekday_averages (lit "X") sample_world
  = (Ok [(0, (inject_Z 13 / inject_Z 2)%Q); (1, (inject_Z 2 / inject_Z 1)%Q)],
     sample_world).
Proof. reflexivity. Qed.

(** ** Characters and digits *)

Lemma str_eqb_eq (a b : str) : str_eqb a b = true <-> a = b.
Proof.
  revert b. induction a as [|x a IH]; intros [|y b]; simpl;
    try (split; [discriminate | discriminate]); [tauto|].
  rewrite andb_true_iff, Ascii.eqb_eq, IH. split.
  - intros [-> ->]. reflexivity.
  - intro H. injection H as -> ->. auto.
Qed.

Lemma code_digit_char (d : Z) : 0 <= d <= 9 -> code (digit_char d) = 48 + d.
Proof.
  intro H. unfold code, digit_char.
  rewrite N_ascii_embedding by lia. lia.
Qed.

Lemma isdigit_digit_char (d : Z) : 0 <= d <= 9 -> isdigit (digit_char d) = true.
Proof.
  intro H. unfold isdigit. rewrite code_digit_char by exact H.
  apply andb_true_iff. rewrite !Z.leb_le. lia.
Qed.

Lemma digit_val_digit_char (d : Z) : 0 <= d <= 9 -> digit_val (digit_char d) = d.
Proof. intro H. unfold digit_val. rewrite code_digit_char by exact H. lia. Qed.

Lemma code_inj (a b : ascii) : code a = code b -> a = b.
Proof.
  unfold code. intro H. apply N2Z.inj in H.
  rewrite <- (ascii_N_embedding a), <- (ascii_N_embedding b), H. reflexivity.
Qed.

Lemma isdigit_code (c : ascii) : isdigit c = true <-> 48 <= code c <= 57.
Proof. unfold isdigit. rewrite andb_true_iff, !Z.leb_le. tauto. Qed.

Lemma ascii_eqb_code (a b : ascii) : Ascii.eqb a b = (code a =? code b).
Proof.
  destruct (Ascii.eqb a b) eqn:E.
  - apply Ascii.eqb_eq in E. subst. symmetry. apply Z.eqb_refl.
  - symmetry. apply Z.eqb_neq. intro H. apply code_inj in H.
    subst. rewrite Ascii.eqb_refl in E. discriminate.
Qed.

(** A digit or a minus sign is no comma, no line break and no whitespace. *)
Lemma numeric_char_plain (c : ascii) :
  numeric_char c = true ->
  Ascii.eqb c comma = false /\ Ascii.eqb c newline = false
  /\ Ascii.eqb c carriage_return = false /\ isspace c = false.
Proof.
  unfold numeric_char. rewrite orb_true_iff, isdigit_code.
  rewrite !ascii_eqb_code. unfold isspace.
  change (code "-") with 45. change (code comma) with 44.
  change (code newline) with 10. change (code carriage_return) with 13.
  intro H. cbv zeta.
  repeat split; rewrite ?orb_false_iff, ?andb_false_iff, ?Z.eqb_neq, ?Z.leb_gt;
    rewrite ?Z.eqb_eq in H; lia.
Qed.

Lemma digits_value_app (a : Z) (s t : str) :
  digits_value a (s ++ t) = digits_value (digits_value a s) t.
Proof. unfold digits_value. apply fold_left_app. Qed.


(** The digits written for a number below [10 ^ (S f)]. *)
Lemma digits_fuel_spec (f : nat) :
  forall (n : Z) (acc : str),
    0 <= n < 10 ^ Z.of_nat (S f) ->
    exists ds : str,
      digits_fuel (S f) n acc = ds ++ acc
      /\ ds <> []
      /\ forallb isdigit ds = true
      /\ forall a, digits_value a ds = a * 10 ^ Z.of_nat (length ds) + n.
Proof.
  induction f as [|f IH]; intros n acc Hn.
  - change (10 ^ Z.of_nat 1) with 10 in Hn.
    assert (L : (n <? 10) = true) by (apply Z.ltb_lt; lia).
    simpl. rewrite L. exists [digit_char (n mod 10)].
    rewrite Z.mod_small by lia.
    split; [reflexivity|]. split; [discriminate|]. split.
    + simpl. rewrite isdigit_digit_char by lia. reflexivity.
    + intro a. unfold digits_value. simpl.
      rewrite digit_val_digit_char by lia. lia.
  - change (digits_fuel (S (S f)) n acc)
      with (if n <? 10 then digit_char (n mod 10) :: acc
            else digits_fuel (S f) (n / 10) (digit_char (n mod 10) :: acc)).
    pose proof (Z.mod_pos_bound n 10 ltac:(lia)) as MB.
    destruct (n <? 10) eqn:L.
    + apply Z.ltb_lt in L. exists [digit_char (n mod 10)].
      rewrite Z.mod_small by lia.
      split; [reflexivity|]. split; [discriminate|]. split.
      * simpl. rewrite isdigit_digit_char by lia. reflexivity.
      * intro a. unfold digits_value. simpl.
        rewrite digit_val_digit_char by lia. lia.
    + apply Z.ltb_ge in L.
      assert (Hq : 0 <= n / 10 < 10 ^ Z.of_nat (S f)).
      { split; [apply Z.div_pos; lia|].
        apply Z.div_lt_upper_bound; [lia|].
        rewrite <- Z.pow_succ_r by lia.
        replace (Z.succ (Z.of_nat (S f))) with (Z.of_nat (S (S f))) by lia.
        lia. }
      destruct (IH (n / 10) (digit_char (n mod 10) :: acc) Hq)
        as (ds & E & NE & AD & V).
      exists (ds ++ [digit_char (n mod 10)]).
      split; [rewrite E, <- app_assoc; reflexivity|].
      split; [destruct ds; discriminate|]. split.
      * rewrite forallb_app, AD. simpl.
        rewrite isdigit_digit_char by lia. reflexivity.
      * intro a. rewrite digits_value_app, V. unfold digits_value. simpl.
        rewrite digit_val_digit_char by lia.
        rewrite length_app. simpl length.
        replace (Z.of_nat (length ds + 1)) with (Z.succ (Z.of_nat (length ds)))
          by lia.
        rewrite Z.pow_succ_r by lia.
        pose proof (Z.div_mod n 10 ltac:(lia)). lia.
Qed.

Lemma str_of_nonneg_spec (n : Z) :
  0 <= n ->
  str_of_nonneg n <> []
  /\ forallb isdigit (str_of_nonneg n) = true
  /\ digits_value 0 (str_of_nonneg n) = n.
Proof.
  intro H. unfold str_of_nonneg.
  assert (B : 0 <= n < 10 ^ Z.of_nat (S (Z.to_nat (Z.log2 n)))).
  { split; [exact H|].
    pose proof (Z.log2_nonneg n) as LN.
    replace (Z.of_nat (S (Z.to_nat (Z.log2 n)))) with (Z.succ (Z.log2 n)) by lia.
    destruct (Z.eq_dec n 0) as [->|NZ]; [reflexivity|].
    pose proof (Z.log2_spec n ltac:(lia)) as [_ U].
    eapply Z.lt_le_trans; [exact U|].
    apply Z.pow_le_mono_l. lia. }
  destruct (digits_fuel_spec _ n [] B) as (ds & E & NE & AD & V).
  rewrite E, app_nil_r. split; [exact NE|]. split; [exact AD|].
  rewrite V. lia.
Qed.

(** ** Stripping and splitting *)

Section Strip.
(** What counts as whitespace: [isspace] for [str.strip], [int_isspace] for
    [int]. *)
Variable space : ascii -> bool.



Lemma rstrip_space (s : str) (c : ascii) :
  space c = true -> rstrip_by space (s ++ [c]) = rstrip_by space s.
Proof.
  intro H. unfold rstrip_by. rewrite rev_app_distr.
  change (rev [c] ++ rev s) with (c :: rev s).
  change (lstrip_by space (c :: rev s))
    with (if space c then lstrip_by space (rev s) else c :: rev s).
  rewrite H. reflexivity.
Qed.

End Strip.





Lemma digits_numeric (s : str) :
  forallb isdigit s = true -> forallb numeric_char s = true.
Proof.
  intro H. rewrite forallb_forall in *. intros c Hc.
  unfold numeric_char. rewrite (H c Hc). reflexivity.
Qed.

(** ** Integers written and read back *)

Lemma py_str_int_numeric (n : Z) :
  forallb numeric_char (py_str_int n) = true /\ py_str_int n <> [].
Proof.
  unfold py_str_int. destruct (n <? 0) eqn:L.
  - apply Z.ltb_lt in L.
    destruct (str_of_nonneg_spec (- n) ltac:(lia)) as (_ & AD & _).
    split; [|discriminate]. simpl. apply digits_numeric, AD.
  - apply Z.ltb_ge in L.
    destruct (str_of_nonneg_spec n L) as (NE & AD & _).
    split; [apply digits_numeric, AD | exact NE].
Qed.




(** ** Dates written and read back *)


Lemma day_text (d : Z) : 1 <= d <= 31 -> day_text_ok d = true.
Proof.
  intro H. replace d with (d - 1 + 1) by lia.
  apply (forallb_range (fun k => day_text_ok (k + 1)) 31);
    [vm_compute; reflexivity | lia].
Qed.

Lemma month_text (m : Z) (rest : str) :
  1 <= m <= 12 ->
  forallb isdigit (zero_pad 2 m) = true
  /\ match_month (zero_pad 2 m ++ rest) = Some (m, rest).
Proof.
  intro H. month_cases m; split; reflexivity.
Qed.

Lemma days_in_month_le_31 (y m : Z) : 1 <= m <= 12 -> days_in_month y m <= 31.
Proof.
  intro H. unfold days_in_month.
  destruct (is_leap y); month_cases m; eval_tables; eval_tests; lia.
Qed.



(** A year below 1000 is written with fewer than four digits, which [%Y]
    of [strptime] does not read. *)
Example strptime_short_year :
  strftime_ymd (mkdate 999 1 2) = lit "999-01-02"
  /\ strptime_ymd (strftime_ymd (mkdate 999 1 2)) = None
  /\ isoformat (mkdate 999 1 2) = lit "0999-01-02".
Proof. repeat split; reflexivity. Qed.


(** ** Loading (C1) *)

Lemma set_historical_data_twice (a b : Store) (w : World) :
  set_historical_data a (set_historical_data b w) = set_historical_data a w.
Proof. reflexivity. Qed.

(** [historical_data[d][diary] = count] as a function of the store. *)
Lemma hd_setitem2_spec (d : date) (diary : str) (count : Z) (w : World) :
  hd_setitem2 d diary count w
  = (Ok tt, set_historical_data (store_set (historical_data w) d diary count) w).
Proof.
  unfold hd_setitem2, bind, hd_getitem, store_set.
  destruct (dict_lookup date_eqb (historical_data w) d) as [sub|] eqn:L.
  - reflexivity.
  - simpl historical_data. rewrite set_historical_data_twice.
    apply (dict_lookup_none date_eqb date_eqb_eq) in L.
    rewrite (dict_set_present date_eqb date_eqb_eq (historical_data w) [] d)
      by exact L.
    reflexivity.
Qed.

Lemma load_line_spec (line : str) (w : World) :
  load_line line w
  = match parse_line line with
    | Ok (d, diary, n) =>
        (Ok tt, set_historical_data (store_set (historical_data w) d diary n) w)
    | Raised e => (Raised e, w)
    end.
Proof.
  unfold load_line, parse_line, bind, lift.
  destruct (unpack3 (split comma (strip line))) as [[[ds cs] dn]|e];
    [|reflexivity].
  destruct (strptime_ymd ds) as [d|]; simpl; [|reflexivity].
  destruct (py_int cs) as [n|]; simpl; [|reflexivity].
  apply hd_setitem2_spec.
Qed.

(** A line that does not parse raises a [ValueError]. *)
Lemma parse_line_error (line : str) (e : exn) :
  parse_line line = Raised e -> exists why, e = ValueError why.
Proof.
  unfold parse_line, unpack3.
  destruct (split comma (strip line)) as [|a [|b [|c [|? ?]]]];
    try (intro H; injection H as <-; eauto).
  destruct (strptime_ymd a); [|intro H; injection H as <-; eauto].
  destruct (py_int b); [discriminate | intro H; injection H as <-; eauto].
Qed.

(** The loop of [load_data_from_file] over lines that all parse. *)
Lemma load_loop_ok (lines : list str) :
  (forall l, In l lines -> exists r, parse_line l = Ok r) ->
  forall w,
    for_each lines (fun line _ => load_line line) tt w
    = (Ok tt,
       set_historical_data (records_of_lines lines (historical_data w)) w).
Proof.
  induction lines as [|l lines IH]; intros H w.
  - simpl. destruct w; reflexivity.
  - simpl for_each. unfold bind. rewrite load_line_spec.
    destruct (H l (or_introl eq_refl)) as [[[d diary] n] E].
    unfold records_of_lines. simpl fold_left. rewrite E.
    rewrite IH by (intros; apply H; simpl; auto).
    reflexivity.
Qed.

(** The loop stops at the first line that does not parse, and keeps what
    the lines before it have stored. *)
Lemma load_loop_fail (good : list str) (bad : str) (rest : list str) (e : exn) :
  (forall l, In l good -> exists r, parse_line l = Ok r) ->
  parse_line bad = Raised e ->
  forall w,
    for_each (good ++ bad :: rest) (fun line _ => load_line line) tt w
    = (Raised e,
       set_historical_data (records_of_lines good (historical_data w)) w).
Proof.
  intros H B. induction good as [|l good IH]; intro w.
  - simpl. unfold bind. rewrite load_line_spec, B. destruct w; reflexivity.
  - simpl for_each. unfold bind. rewrite load_line_spec.
    destruct (H l (or_introl eq_refl)) as [[[d diary] n] E].
    unfold records_of_lines. simpl fold_left. rewrite E.
    rewrite IH by (intros; apply H; simpl; auto).
    reflexivity.
Qed.

(** The lines of a file all parse, or there is a first one that does not. *)
Lemma lines_parse_or_fail (lines : list str) :
  (forall l, In l lines -> exists r, parse_line l = Ok r)
  \/ (exists good bad rest e,
        lines = good ++ bad :: rest
        /\ (forall l, In l good -> exists r, parse_line l = Ok r)
        /\ parse_line bad = Raised e).
Proof.
  induction lines as [|l lines IH].
  - left. intros l [].
  - destruct (parse_line l) as [r|e] eqn:E.
    + destruct IH as [A|(good & bad & rest & e & -> & G & B)].
      * left. intros x [<-|H]; eauto.
      * right. exists (l :: good), bad, rest, e. split; [reflexivity|].
        split; [|exact B]. intros x [<-|H]; eauto.
    + right. exists [], l, lines, e. split; [reflexivity|].
      split; [intros x []|exact E].
Qed.


Lemma load_missing (exn_text : exn -> str) (filename : str) (w : World) :
  dict_lookup str_eqb (files w) filename = None ->
  load_data_from_file exn_text filename w
  = (Ok tt,
     add_dialog
       (showerror (lit "Error") (lit "File " ++ filename ++ lit " not found."))
       (set_historical_data [] w)).
Proof.
  intro L. unfold load_data_from_file, bind at 1, hd_reset, try_except.
  unfold bind at 1, open_read. simpl files. rewrite L. reflexivity.
Qed.

Lemma load_malformed (exn_text : exn -> str) (filename : str) (w : World)
    (content : str) (good : list str) (bad : str) (rest : list str) (e : exn) :
  dict_lookup str_eqb (files w) filename = Some content ->
  file_lines content = good ++ bad :: rest ->
  (forall l, In l good -> exists r, parse_line l = Ok r) ->
  parse_line bad = Raised e ->
  load_data_from_file exn_text filename w
  = (Ok tt,
     add_dialog
       (showerror (lit "Error")
          (lit "Failed to load data from file: " ++ exn_text e))
       (set_historical_data (records_of_lines good []) w)).
Proof.
  intros L FL G B.
  unfold load_data_from_file, bind at 1, hd_reset, try_except.
  unfold bind at 1, open_read. simpl files. rewrite L. simpl of_option.
  cbv iota beta. unfold bind at 1.
  rewrite FL, (load_loop_fail good bad rest e G B).
  destruct (parse_line_error bad e B) as [why ->]. reflexivity.
Qed.

Lemma load_well_formed (exn_text : exn -> str) (filename : str) (w : World)
    (content : str) :
  dict_lookup str_eqb (files w) filename = Some content ->
  (forall l, In l (file_lines content) -> exists r, parse_line l = Ok r) ->
  load_data_from_file exn_text filename w
  = (Ok tt,
     add_stdout (lit "Data successfully loaded from " ++ filename ++ lit ".")
       (set_historical_data (records_of_lines (file_lines content) []) w)).
Proof.
  intros L A.
  unfold load_data_from_file, bind at 1, hd_reset, try_except.
  unfold bind at 1, open_read. simpl files. rewrite L. simpl of_option.
  cbv iota beta. unfold bind at 1.
  rewrite (load_loop_ok _ A). reflexivity.
Qed.




(** ** Saving *)

Lemma dict_set_twice {V} (d : dict str V) (k : str) (a b : V) :
  dict_set str_eqb (dict_set str_eqb d k a) k b = dict_set str_eqb d k b.
Proof.
  induction d as [|[k' v] d IH]; simpl.
  - rewrite (keq_refl str_eqb str_eqb_eq). reflexivity.
  - destruct (str_eqb k' k) eqn:E; simpl; rewrite E; [reflexivity|].
    rewrite IH. reflexivity.
Qed.

Lemma file_write_with_file (path content text : str) (w : World) :
  file_write path text (with_file path content w)
  = (Ok tt, with_file path (content ++ text) w).
Proof.
  unfold file_write, with_file, set_files, dict_get. simpl files.
  rewrite (dict_lookup_set_same str_eqb str_eqb_eq), dict_set_twice.
  reflexivity.
Qed.

Lemma save_inner_loop (path : str) (d : date) (diaries : dict str Z) :
  forall (content : str) (w : World),
    for_each diaries
      (fun '(diary, count) _ => file_write path (record_line d count diary))
      tt (with_file path content w)
    = (Ok tt,
       with_file path
         (content
          ++ flat_map (fun '(diary, count) => record_line d count diary) diaries)
         w).
Proof.
  induction diaries as [|[diary count] diaries IH]; intros content w.
  - simpl. rewrite app_nil_r. reflexivity.
  - simpl for_each. unfold bind. rewrite file_write_with_file, IH.
    simpl flat_map. rewrite <- app_assoc. reflexivity.
Qed.

Lemma save_outer_loop (path : str) (items : Store) :
  forall (content : str) (w : World),
    for_each items
      (fun '(d, diaries) _ =>
         for_each diaries
           (fun '(diary, count) _ => file_write path (record_line d count diary))
           tt)
      tt (with_file path content w)
    = (Ok tt, with_file path (content ++ store_text items) w).
Proof.
  induction items as [|[d diaries] items IH]; intros content w.
  - simpl. rewrite app_nil_r. reflexivity.
  - simpl for_each. unfold bind. rewrite save_inner_loop, IH.
    unfold store_text. simpl flat_map. rewrite <- app_assoc. reflexivity.
Qed.

(** Saving replaces the text of the file by the lines of the store. *)
Lemma save_data_spec (path : str) (w : World) :
  save_data path w
  = (Ok tt, with_file path (store_text (historical_data w)) w).
Proof.
  unfold save_data, bind at 1, open_write. fold (with_file path [] w).
  unfold bind, hd_items. simpl historical_data.
  rewrite save_outer_loop. reflexivity.
Qed.

(** ** The lines of a saved file *)

Lemma universal_newlines_id (s : str) :
  forallb (fun c => negb (Ascii.eqb c carriage_return)) s = true ->
  universal_newlines s = s.
Proof.
  induction s as [|c s IH]; simpl; [reflexivity|].
  rewrite andb_true_iff, negb_true_iff. intros [Hc Hs].
  rewrite Hc, (IH Hs). reflexivity.
Qed.

Lemma lines_keepends_line (body rest : str) :
  forallb (fun c => negb (Ascii.eqb c newline)) body = true ->
  lines_keepends (body ++ newline :: rest)
  = (body ++ [newline]) :: lines_keepends rest.
Proof.
  induction body as [|c body IH]; simpl.
  - intros _. reflexivity.
  - rewrite andb_true_iff, negb_true_iff. intros [Hc Hb].
    rewrite Hc, (IH Hb). reflexivity.
Qed.

Lemma lines_keepends_bodies (bodies : list str) :
  Forall (fun b => forallb (fun c => negb (Ascii.eqb c newline)) b = true) bodies ->
  lines_keepends (flat_map (fun b => b ++ [newline]) bodies)
  = map (fun b => b ++ [newline]) bodies.
Proof.
  induction 1 as [|b bodies Hb _ IH]; simpl; [reflexivity|].
  rewrite <- app_assoc. simpl app. rewrite (lines_keepends_line b _ Hb), IH.
  reflexivity.
Qed.

Lemma record_line_body (d : date) (count : Z) (diary : str) :
  record_line d count diary = record_body d count diary ++ [newline].
Proof.
  unfold record_line, record_body.
  rewrite <- !app_assoc. simpl. rewrite <- !app_assoc. reflexivity.
Qed.

Lemma diary_name_ok_spec (diary : str) :
  diary_name_ok diary = true ->
  forallb (fun c => negb (Ascii.eqb c comma)) diary = true
  /\ forallb (fun c => negb (Ascii.eqb c newline)) diary = true
  /\ forallb (fun c => negb (Ascii.eqb c carriage_return)) diary = true
  /\ (diary = [] \/ exists front z, diary = front ++ [z] /\ isspace z = false).
Proof.
  unfold diary_name_ok. rewrite andb_true_iff. intros [A L].
  rewrite forallb_forall in A.
  assert (P : forall c, In c diary ->
                negb (Ascii.eqb c comma) = true
                /\ negb (Ascii.eqb c newline) = true
                /\ negb (Ascii.eqb c carriage_return) = true).
  { intros c Hc. specialize (A c Hc). rewrite !andb_true_iff in A. tauto. }
  repeat split; try (apply forallb_forall; intros c Hc; apply (P c Hc)).
  destruct diary as [|z front] using rev_ind; [left; reflexivity|].
  right. exists front, z. split; [reflexivity|].
  rewrite rev_app_distr in L. simpl in L. apply negb_true_iff, L.
Qed.




(** ** The records of a store *)


Lemma store_text_records (h : Store) :
  store_text h
  = flat_map (fun '(d, diary, c) => record_line d c diary) (store_records h).
Proof.
  unfold store_text, store_records.
  induction h as [|[d diaries] h IH]; simpl; [reflexivity|].
  rewrite flat_map_app, IH. f_equal.
  induction diaries as [|[diary c] s IHs]; simpl; [reflexivity|].
  rewrite IHs. reflexivity.
Qed.



Lemma dict_lookup_app_other {K V} (keq : K -> K -> bool)
    (keq_eq : forall a b, keq a b = true <-> a = b)
    (d : dict K V) (k k' : K) (v : V) :
  k' <> k -> dict_lookup keq (d ++ [(k, v)]) k' = dict_lookup keq d k'.
Proof.
  intro N. induction d as [|[k0 v0] d IH]; simpl.
  - rewrite (keq_neq keq keq_eq) by auto. reflexivity.
  - rewrite IH. reflexivity.
Qed.

Lemma store_lookup_store_set (h : Store) (d d' : date) (diary diary' : str)
    (c : Z) :
  store_lookup (store_set h d diary c) d' diary'
  = if date_eqb d d' && str_eqb diary diary' then Some c
    else store_lookup h d' diary'.
Proof.
  unfold store_lookup, store_set.
  destruct (date_eqb d d') eqn:Ed.
  - apply date_eqb_eq in Ed. subst d'.
    destruct (dict_lookup date_eqb h d) as [sub|] eqn:L.
    + rewrite (dict_lookup_set_same date_eqb date_eqb_eq).
      destruct (str_eqb diary diary') eqn:Es; simpl.
      * apply str_eqb_eq in Es. subst.
        apply (dict_lookup_set_same str_eqb str_eqb_eq).
      * apply (dict_lookup_set_other str_eqb str_eqb_eq).
        intro H. subst. rewrite (keq_refl str_eqb str_eqb_eq) in Es. discriminate.
    + rewrite (dict_lookup_app_last date_eqb date_eqb_eq) by exact L.
      simpl. destruct (str_eqb diary diary'); reflexivity.
  - simpl andb. cbv iota.
    assert (N : d' <> d).
    { intro H. subst. rewrite (keq_refl date_eqb date_eqb_eq) in Ed. discriminate. }
    destruct (dict_lookup date_eqb h d) as [sub|] eqn:L.
    + rewrite (dict_lookup_set_other date_eqb date_eqb_eq) by exact N. reflexivity.
    + rewrite (dict_lookup_app_other date_eqb date_eqb_eq) by exact N.
      reflexivity.
Qed.







(** ** Saving and loading again (C4) *)



(** The text saved for the sample world. *)
Example store_text_sample :
  store_text (historical_data sample_world)
  = lit "2023-01-02,100,X" ++ [newline] ++ lit "2024-01-01,5,X" ++ [newline]
    ++ lit "2024-01-01,6,Y" ++ [newline] ++ lit "2024-01-08,8,X" ++ [newline]
    ++ lit "2024-01-09,2,X" ++ [newline].
Proof. reflexivity. Qed.


(* ================================================================== *)
(** * Part III. Further properties of the code *)
(* ================================================================== *)

(** ** Assignments to a dictionary *)

Section DictSetFacts.
Context {K V : Type} (keq : K -> K -> bool).
Hypothesis keq_eq : forall a b, keq a b = true <-> a = b.

Lemma dict_contains_in (d : dict K V) (k : K) :
  dict_contains keq d k = true <-> In k (keys d).
Proof.
  unfold dict_contains.
  destruct (dict_lookup keq d k) eqn:L.
  - split; [intros _|reflexivity].
    apply (dict_lookup_in keq keq_eq) in L.
    change k with (fst (k, v)). apply in_map, L.
  - apply (dict_lookup_none keq keq_eq) in L. split; [discriminate|tauto].
Qed.

Lemma dict_set_keys (d : dict K V) (k : K) (v : V) :
  keys (dict_set keq d k v)
  = if dict_contains keq d k then keys d else keys d ++ [k].
Proof.
  unfold dict_contains.
  destruct (dict_lookup keq d k) eqn:L.
  - apply (dict_set_keys_present keq keq_eq).
    apply dict_contains_in. unfold dict_contains. rewrite L. reflexivity.
  - rewrite (dict_set_absent keq d k v L). unfold keys.
    rewrite map_app. reflexivity.
Qed.

Lemma dict_set_NoDup (d : dict K V) (k : K) (v : V) :
  NoDup (keys d) -> NoDup (keys (dict_set keq d k v)).
Proof.
  intro ND. rewrite dict_set_keys.
  destruct (dict_contains keq d k) eqn:C; [exact ND|].
  apply NoDup_app; [exact ND | repeat constructor; intros [] | ].
  intros x Hx [<-|[]].
  apply dict_contains_in in Hx. congruence.
Qed.

Lemma dict_set_length (d : dict K V) (k : K) (v : V) :
  length (dict_set keq d k v)
  = (length d + if dict_contains keq d k then 0 else 1)%nat.
Proof.
  unfold dict_contains. induction d as [|[k' v'] d IH]; simpl; [reflexivity|].
  destruct (keq k' k); simpl; [lia|].
  rewrite IH. reflexivity.
Qed.

Lemma dict_set_Forall (P : K * V -> Prop) (d : dict K V) (k : K) (v : V) :
  Forall P d -> P (k, v) -> Forall P (dict_set keq d k v).
Proof.
  intros F H. induction F as [|[k' v'] d Hx F IH]; simpl.
  - constructor; [exact H | constructor].
  - destruct (keq k' k) eqn:E.
    + apply keq_eq in E. subst. constructor; assumption.
    + constructor; assumption.
Qed.

Lemma dict_lookup_Forall (P : K * V -> Prop) (d : dict K V) (k : K) (v : V) :
  Forall P d -> dict_lookup keq d k = Some v -> P (k, v).
Proof.
  intros F L. rewrite Forall_forall in F.
  apply F, (dict_lookup_in keq keq_eq), L.
Qed.
End DictSetFacts.

(** ** The store after an assignment *)

Lemma store_set_dict_set (h : Store) (d : date) (diary : str) (c : Z) :
  store_set h d diary c
  = dict_set date_eqb h d
      (dict_set str_eqb (dict_get date_eqb h d []) diary c).
Proof.
  unfold store_set, dict_get.
  destruct (dict_lookup date_eqb h d) eqn:L; [reflexivity|].
  rewrite (dict_set_absent date_eqb h d _ L). reflexivity.
Qed.

Lemma store_sub_Forall (P : date * dict str Z -> Prop) (h : Store) (d : date) :
  Forall P h -> P (d, []) -> P (d, dict_get date_eqb h d []).
Proof.
  intros F E. unfold dict_get.
  destruct (dict_lookup date_eqb h d) eqn:L; [|exact E].
  apply (dict_lookup_Forall date_eqb date_eqb_eq P h d _ F L).
Qed.

Lemma store_set_wf (h : Store) (d : date) (diary : str) (c : Z) :
  store_wf h -> store_wf (store_set h d diary c).
Proof.
  unfold store_wf. intros [ND SUB]. rewrite store_set_dict_set. split.
  - apply (dict_set_NoDup date_eqb date_eqb_eq), ND.
  - apply (dict_set_Forall date_eqb date_eqb_eq); [exact SUB|].
    simpl. apply (dict_set_NoDup str_eqb str_eqb_eq).
    apply (store_sub_Forall (fun e => NoDup (keys (snd e))) h d SUB).
    constructor.
Qed.

Lemma store_set_dates_ok (h : Store) (d : date) (diary : str) (c : Z) :
  date_ok d = true -> store_dates_ok h -> store_dates_ok (store_set h d diary c).
Proof.
  unfold store_dates_ok. intros V F. rewrite store_set_dict_set.
  apply (dict_set_Forall date_eqb date_eqb_eq); assumption.
Qed.


Lemma store_set_diaries_ok (h : Store) (d : date) (diary : str) (c : Z) :
  diary_name_ok diary = true -> diaries_ok h ->
  diaries_ok (store_set h d diary c).
Proof.
  unfold diaries_ok. intros V F. rewrite store_set_dict_set.
  apply (dict_set_Forall date_eqb date_eqb_eq); [exact F|].
  simpl. apply (dict_set_Forall str_eqb str_eqb_eq); [|exact V].
  apply (store_sub_Forall
           (fun e => Forall (fun r => diary_name_ok (fst r) = true) (snd e))
           h d F).
  constructor.
Qed.

Lemma store_set_no_empty_date (h : Store) (d : date) (diary : str) (c : Z) :
  no_empty_date h -> no_empty_date (store_set h d diary c).
Proof.
  unfold no_empty_date. intro F. rewrite store_set_dict_set.
  apply (dict_set_Forall date_eqb date_eqb_eq); [exact F|].
  simpl. destruct (dict_get date_eqb h d []) as [|[k v] s]; simpl;
    [discriminate|].
  destruct (str_eqb k diary); discriminate.
Qed.

Lemma store_records_length_set (h : Store) (d : date) (sub sub' : dict str Z) :
  dict_lookup date_eqb h d = Some sub ->
  length (store_records (dict_set date_eqb h d sub'))
  = (length (store_records h) + length sub' - length sub)%nat.
Proof.
  unfold store_records.
  induction h as [|[d0 s0] h IH]; simpl; [discriminate|].
  destruct (date_eqb d0 d) eqn:E.
  - intro H. injection H as ->. simpl. rewrite !length_app, !length_map. lia.
  - intro H. simpl. rewrite !length_app, IH by exact H.
    rewrite !length_map.
    assert (length sub <= length (flat_map
              (fun '(d1, diaries) =>
                 map (fun '(diary, count) => (d1, diary, count)) diaries) h))%nat.
    { clear IH. induction h as [|[d1 s1] h IH']; simpl in *; [discriminate|].
      rewrite length_app, length_map.
      destruct (date_eqb d1 d); [injection H as ->; lia|].
      specialize (IH' H). lia. }
    lia.
Qed.

(** An assignment adds one record when the date and the diary had none,
    and no record otherwise. *)
Lemma record_count_store_set (h : Store) (d : date) (diary : str) (c : Z) :
  record_count (store_set h d diary c)
  = (record_count h
     + match store_lookup h d diary with Some _ => 0 | None => 1 end)%nat.
Proof.
  unfold record_count, store_set, store_lookup.
  destruct (dict_lookup date_eqb h d) as [sub|] eqn:L.
  - rewrite (store_records_length_set h d sub _ L).
    rewrite (dict_set_length str_eqb). unfold dict_contains.
    destruct (dict_lookup str_eqb sub diary); lia.
  - unfold store_records. rewrite flat_map_app, length_app. reflexivity.
Qed.

(** ** Adding a count *)

Lemma add_article_count_world (d : date) (diary : str) (count : Z) (w : World) :
  add_article_count d diary count w
  = (Ok tt,
     add_dialog
       (showinfo (lit "Success")
          (lit "Articles for " ++ isoformat d ++ lit " from " ++ diary
           ++ lit " updated with " ++ py_str_int count ++ lit " articles."))
       (set_historical_data (store_set (historical_data w) d diary count) w)).
Proof.
  unfold add_article_count, bind. rewrite hd_setitem2_spec. reflexivity.
Qed.

(** X1.  [add_article_count] is an insert-or-update and never fails: after
    it the store holds the new count for the date and the diary and what it
    held before for every other date and diary; the number of records grows
    by one when the date and the diary had no count and stays the same when
    they had one; one "Success" dialog is shown; the files, the clock and
    the printed lines are untouched. *)
Theorem add_article_count_upsert (d : date) (diary : str) (count : Z)
    (w : World) :
  exists w' : World,
    add_article_count d diary count w = (Ok tt, w')
    /\ store_lookup (historical_data w') d diary = Some count
    /\ (forall d' diary',
          d' <> d \/ diary' <> diary ->
          store_lookup (historical_data w') d' diary'
          = store_lookup (historical_data w) d' diary')
    /\ record_count (historical_data w')
       = (record_count (historical_data w)
          + match store_lookup (historical_data w) d diary with
            | Some _ => 0
            | None => 1
            end)%nat
    /\ dialogs w'
       = dialogs w
         ++ [showinfo (lit "Success")
               (lit "Articles for " ++ isoformat d ++ lit " from " ++ diary
                ++ lit " updated with " ++ py_str_int count ++ lit " articles.")]
    /\ files w' = files w /\ clock w' = clock w /\ stdout w' = stdout w.
Proof.
  eexists. split; [apply add_article_count_world|]. simpl.
  split; [|split; [|split; [|repeat split]]].
  - rewrite store_lookup_store_set.
    rewrite (keq_refl date_eqb date_eqb_eq), (keq_refl str_eqb str_eqb_eq).
    reflexivity.
  - intros d' diary' N. rewrite store_lookup_store_set.
    destruct (date_eqb d d') eqn:Ed; [|reflexivity].
    destruct (str_eqb diary diary') eqn:Es; [|reflexivity].
    apply date_eqb_eq in Ed. apply str_eqb_eq in Es. subst.
    destruct N as [N|N]; congruence.
  - apply record_count_store_set.
Qed.

(** ** More on stripping and splitting *)

Section StripMore.
Variable space : ascii -> bool.

Lemma lstrip_by_nonspace (s : str) (c : ascii) (r : str) :
  lstrip_by space s = c :: r -> space c = false.
Proof.
  induction s as [|x s IH]; simpl; [discriminate|].
  destruct (space x) eqn:E; [exact IH|].
  intro H. injection H as <- _. exact E.
Qed.

Lemma lstrip_by_incl (s : str) : incl (lstrip_by space s) s.
Proof.
  induction s as [|x s IH]; simpl; [apply incl_refl|].
  destruct (space x); [apply incl_tl, IH | apply incl_refl].
Qed.

Lemma rstrip_by_incl (s : str) : incl (rstrip_by space s) s.
Proof.
  unfold rstrip_by. intros c H. apply in_rev in H.
  apply lstrip_by_incl in H. apply in_rev in H. exact H.
Qed.

Lemma strip_by_incl (s : str) : incl (strip_by space s) s.
Proof.
  unfold strip_by. intros c H.
  apply lstrip_by_incl, rstrip_by_incl, H.
Qed.

Lemma rstrip_by_last (s r : str) (c : ascii) :
  rstrip_by space s = r ++ [c] -> space c = false.
Proof.
  unfold rstrip_by. intro H.
  apply (f_equal (@rev ascii)) in H.
  rewrite rev_involutive, rev_app_distr in H. simpl in H.
  apply lstrip_by_nonspace in H. exact H.
Qed.

Lemma strip_by_last (s r : str) (c : ascii) :
  strip_by space s = r ++ [c] -> space c = false.
Proof. unfold strip_by. apply rstrip_by_last. Qed.

Lemma lstrip_by_snoc_space (s : str) (c : ascii) :
  space c = true ->
  lstrip_by space (s ++ [c])
  = match lstrip_by space s with
    | [] => []
    | x :: r => (x :: r) ++ [c]
    end.
Proof.
  intro H. induction s as [|x s IH]; simpl.
  - rewrite H. reflexivity.
  - destruct (space x); [exact IH | reflexivity].
Qed.

(** Whitespace at the end of a text does not change what stripping gives. *)
Lemma strip_by_snoc_space (s : str) (c : ascii) :
  space c = true -> strip_by space (s ++ [c]) = strip_by space s.
Proof.
  intro H. unfold strip_by. rewrite (lstrip_by_snoc_space s c H).
  destruct (lstrip_by space s) as [|x r]; [reflexivity|].
  apply rstrip_space, H.
Qed.

Lemma lstrip_by_count (s : str) (c : ascii) :
  space c = false ->
  count_occ ascii_dec (lstrip_by space s) c = count_occ ascii_dec s c.
Proof.
  intro H. induction s as [|x s IH]; simpl; [reflexivity|].
  destruct (space x) eqn:E; [|reflexivity].
  rewrite IH. destruct (ascii_dec x c) as [->|N]; [congruence|reflexivity].
Qed.

Lemma strip_by_count (s : str) (c : ascii) :
  space c = false ->
  count_occ ascii_dec (strip_by space s) c = count_occ ascii_dec s c.
Proof.
  intro H. unfold strip_by, rstrip_by.
  rewrite count_occ_rev, lstrip_by_count, count_occ_rev, lstrip_by_count
    by exact H.
  reflexivity.
Qed.
End StripMore.

Lemma split_nonempty (sep : ascii) (s : str) : split sep s <> [].
Proof.
  destruct s as [|c s]; simpl; [discriminate|].
  destruct (Ascii.eqb c sep); [discriminate|].
  destruct (split sep s); discriminate.
Qed.

(** A text with [n] separators splits into [n + 1] fields. *)
Lemma split_length (sep : ascii) (s : str) :
  length (split sep s) = S (count_occ ascii_dec s sep).
Proof.
  induction s as [|c s IH]; simpl; [reflexivity|].
  destruct (ascii_dec c sep) as [->|N].
  - rewrite Ascii.eqb_refl. simpl. rewrite IH. reflexivity.
  - assert (E : Ascii.eqb c sep = false).
    { destruct (Ascii.eqb c sep) eqn:E; [|reflexivity].
      apply Ascii.eqb_eq in E. contradiction. }
    rewrite E. pose proof (split_nonempty sep s) as NE.
    destruct (split sep s) as [|f fs]; [congruence|]. exact IH.
Qed.

(** No field has the separator. *)
Lemma split_fields (sep : ascii) (s : str) :
  Forall (fun f => forallb (fun c => negb (Ascii.eqb c sep)) f = true)
    (split sep s).
Proof.
  induction s as [|c s IH]; simpl; [repeat constructor|].
  destruct (Ascii.eqb c sep) eqn:E; [constructor; [reflexivity|exact IH]|].
  destruct (split sep s) as [|f fs]; [repeat constructor; simpl; rewrite E; reflexivity|].
  inversion IH as [|? ? Hf Hfs]; subst.
  constructor; [|exact Hfs]. simpl. rewrite E, Hf. reflexivity.
Qed.

(** The fields joined by the separator give the text back. *)
Lemma split_join (sep : ascii) (s : str) : join [sep] (split sep s) = s.
Proof.
  induction s as [|c s IH]; simpl; [reflexivity|].
  destruct (Ascii.eqb c sep) eqn:E.
  - apply Ascii.eqb_eq in E. subst c.
    pose proof (split_nonempty sep s) as NE.
    destruct (split sep s) as [|f fs]; [congruence|].
    change (join [sep] ([] :: f :: fs)) with ([] ++ [sep] ++ join [sep] (f :: fs)).
    rewrite IH. reflexivity.
  - pose proof (split_nonempty sep s) as NE.
    destruct (split sep s) as [|f fs]; [congruence|].
    destruct fs as [|g fs].
    + simpl in *. rewrite IH. reflexivity.
    + change (join [sep] ((c :: f) :: g :: fs))
        with ((c :: f) ++ [sep] ++ join [sep] (g :: fs)).
      change (join [sep] (f :: g :: fs))
        with (f ++ [sep] ++ join [sep] (g :: fs)) in IH.
      rewrite <- IH. reflexivity.
Qed.

Lemma isspace_comma : isspace comma = false.
Proof. reflexivity. Qed.

Lemma isspace_newline : isspace newline = true.
Proof. reflexivity. Qed.

(** ** The lines of a text file *)

Lemma universal_newlines_no_cr (s : str) :
  forallb (fun c => negb (Ascii.eqb c carriage_return)) (universal_newlines s)
  = true.
Proof.
  assert (G : forall (n : nat) (t : str),
            (length t <= n)%nat ->
            forallb (fun c => negb (Ascii.eqb c carriage_return))
              (universal_newlines t) = true).
  { induction n as [|n IH]; intros [|c r] L; simpl in L; try reflexivity; [lia|].
    simpl. destruct (Ascii.eqb c carriage_return) eqn:E.
    - simpl. destruct r as [|d r']; [reflexivity|].
      destruct (Ascii.eqb d newline); apply IH; simpl in *; lia.
    - simpl. rewrite E. simpl. apply IH. lia. }
  apply (G (length s)). lia.
Qed.

Lemma lines_keepends_shape (s : str) (l : str) :
  In l (lines_keepends s) ->
  incl l s
  /\ exists body : str,
       (l = body ++ [newline] \/ l = body)
       /\ forallb (fun c => negb (Ascii.eqb c newline)) body = true.
Proof.
  revert l. induction s as [|c s IH]; intros l H; simpl in H; [destruct H|].
  destruct (Ascii.eqb c newline) eqn:E.
  - apply Ascii.eqb_eq in E. subst c. destruct H as [<-|H].
    + split; [intros x [<-|[]]; simpl; auto|].
      exists []. split; [left; reflexivity | reflexivity].
    + destruct (IH l H) as [I B]. split; [apply incl_tl, I | exact B].
  - destruct (lines_keepends s) as [|l0 ls] eqn:LK.
    + destruct H as [<-|[]]. split; [intros x [<-|[]]; simpl; auto|].
      exists [c]. split; [right; reflexivity|]. simpl. rewrite E. reflexivity.
    + destruct H as [<-|H].
      * destruct (IH l0 (or_introl eq_refl)) as [I (body & S & B)].
        split; [intros x [<-|Hx]; simpl; auto|].
        exists (c :: body). split.
        -- destruct S as [->| ->]; [left|right]; reflexivity.
        -- simpl. rewrite E, B. reflexivity.
      * destruct (IH l (or_intror H)) as [I B].
        split; [apply incl_tl, I | exact B].
Qed.

(** The lines of a file have the shape of a line. *)
Lemma file_lines_shape (content : str) (l : str) :
  In l (file_lines content) -> line_shape l.
Proof.
  unfold file_lines. intro H.
  destruct (lines_keepends_shape _ l H) as [I (body & S & B)].
  exists body. split; [exact S|].
  pose proof (universal_newlines_no_cr content) as CR.
  rewrite forallb_forall in *. intros c Hc. unfold plain_char.
  rewrite (B c Hc). simpl. apply CR, I.
  destruct S as [->| ->]; [apply in_app_iff; auto | exact Hc].
Qed.

(** ** What a line of the file is read as *)

Lemma strptime_ymd_date_ok (s : str) (d : date) :
  strptime_ymd s = Some d -> date_ok d = true.
Proof.
  unfold strptime_ymd.
  destruct s as [|y1 [|y2 [|y3 [|y4 [|dash1 r1]]]]]; try discriminate.
  destruct (_ && _); [|discriminate].
  destruct (match_month r1) as [[m [|dash2 r2]]|]; try discriminate.
  destruct (Ascii.eqb dash2 "-"); [|discriminate].
  destruct (match_day r2) as [[dd [|? ?]]|]; try discriminate.
  unfold datetime_date.
  match goal with |- context [date_ok ?r] => destruct (date_ok r) eqn:V end;
    [|discriminate].
  intro H. injection H as <-. exact V.
Qed.

(** A line is read as a record when it strips and splits into three fields
    of which the first is a date and the second a number. *)
Lemma parse_line_ok (line : str) (d : date) (diary : str) (n : Z) :
  parse_line line = Ok (d, diary, n)
  <-> exists ds cs : str,
        split comma (strip line) = [ds; cs; diary]
        /\ strptime_ymd ds = Some d /\ py_int cs = Some n.
Proof.
  unfold parse_line, unpack3. split.
  - destruct (split comma (strip line)) as [|a [|b [|c [|? ?]]]];
      try discriminate.
    destruct (strptime_ymd a) as [d0|] eqn:D; [|discriminate].
    destruct (py_int b) as [n0|] eqn:N; [|discriminate].
    intro H. injection H as -> -> ->. eauto.
  - intros (ds & cs & -> & -> & ->). reflexivity.
Qed.

Lemma strip_line_shape (l : str) :
  line_shape l -> forallb plain_char (strip l) = true.
Proof.
  intros (body & S & B).
  assert (E : strip l = strip body).
  { destruct S as [->| ->]; [|reflexivity].
    apply strip_by_snoc_space, isspace_newline. }
  rewrite E. rewrite forallb_forall in *. intros c Hc.
  apply B, (strip_by_incl isspace body c Hc).
Qed.

(** The diary name read from a line of a file has no comma, no line break,
    and no whitespace at its end. *)
Lemma parse_line_diary_ok (line : str) (d : date) (diary : str) (n : Z) :
  line_shape line -> parse_line line = Ok (d, diary, n) ->
  diary_name_ok diary = true.
Proof.
  intros LS P. apply parse_line_ok in P. destruct P as (ds & cs & S & _ & _).
  pose proof (strip_line_shape line LS) as PL.
  pose proof (split_fields comma (strip line)) as SF.
  pose proof (split_join comma (strip line)) as SJ.
  rewrite S in SF, SJ. simpl in SJ.
  inversion SF as [|? ? _ SF1]; subst. inversion SF1 as [|? ? _ SF2]; subst.
  inversion SF2 as [|? ? NC _]; subst.
  unfold diary_name_ok. apply andb_true_iff. split.
  - rewrite forallb_forall in *. intros c Hc.
    rewrite (NC c Hc). simpl.
    assert (I : In c (strip line)).
    { rewrite <- SJ. apply in_app_iff. right. right.
      apply in_app_iff. right. right. exact Hc. }
    specialize (PL c I). unfold plain_char in PL. exact PL.
  - destruct (rev diary) as [|c t] eqn:R; [reflexivity|].
    apply negb_true_iff.
    apply (strip_by_last isspace line (ds ++ comma :: cs ++ comma :: rev t) c).
    fold (strip line). rewrite <- SJ.
    apply (f_equal (@rev ascii)) in R. rewrite rev_involutive in R.
    rewrite R. simpl. rewrite <- !app_assoc. simpl.
    rewrite <- !app_assoc. reflexivity.
Qed.

Lemma parse_line_date_ok (line : str) (d : date) (diary : str) (n : Z) :
  parse_line line = Ok (d, diary, n) -> date_ok d = true.
Proof.
  intro P. apply parse_line_ok in P. destruct P as (ds & cs & _ & D & _).
  apply (strptime_ymd_date_ok ds d D).
Qed.

Lemma store_loaded_ok_nil : store_loaded_ok [].
Proof. repeat split; constructor. Qed.

(** The store that lines of a file build keeps the invariants of a loaded
    store. *)
Lemma records_of_lines_loaded_ok (lines : list str) :
  Forall line_shape lines ->
  forall h, store_loaded_ok h -> store_loaded_ok (records_of_lines lines h).
Proof.
  unfold records_of_lines.
  induction 1 as [|l lines LS _ IH]; intros h OK; [exact OK|].
  simpl fold_left. apply IH.
  destruct (parse_line l) as [[[d diary] n]|e] eqn:P; [|exact OK].
  destruct OK as (WF & SD & DO & NE).
  repeat split.
  - apply (proj1 (store_set_wf h d diary n (conj (proj1 WF) (proj2 WF)))).
  - apply (proj2 (store_set_wf h d diary n WF)).
  - apply store_set_dates_ok; [apply (parse_line_date_ok l d diary n P)|exact SD].
  - apply store_set_diaries_ok;
      [apply (parse_line_diary_ok l d diary n LS P)|exact DO].
  - apply store_set_no_empty_date, NE.
Qed.


Lemma parsed_prefix_stop (good : list str) (bad : str) (rest : list str)
    (e : exn) :
  parse_line bad = Raised e ->
  parsed_prefix (good ++ bad :: rest) = parsed_prefix good.
Proof.
  intro B. induction good as [|l good IH]; simpl.
  - rewrite B. reflexivity.
  - destruct (parse_line l); [rewrite IH|]; reflexivity.
Qed.

Lemma load_store (exn_text : exn -> str) (filename : str) (w : World)
    (content : str) :
  dict_lookup str_eqb (files w) filename = Some content ->
  exists lines : list str,
    incl lines (file_lines content)
    /\ (forall l, In l lines -> exists r, parse_line l = Ok r)
    /\ parsed_prefix lines = parsed_prefix (file_lines content)
    /\ fst (load_data_from_file exn_text filename w) = Ok tt
    /\ historical_data (snd (load_data_from_file exn_text filename w))
       = records_of_lines lines []
    /\ files (snd (load_data_from_file exn_text filename w)) = files w
    /\ clock (snd (load_data_from_file exn_text filename w)) = clock w.
Proof.
  intro L.
  destruct (lines_parse_or_fail (file_lines content))
    as [A|(good & bad & rest & e & FL & G & B)].
  - exists (file_lines content).
    rewrite (load_well_formed exn_text filename w content L A).
    repeat split; try reflexivity; [apply incl_refl | exact A].
  - exists good.
    rewrite (load_malformed exn_text filename w content good bad rest e L FL G B).
    repeat split; try reflexivity; [|exact G|].
    + rewrite FL. apply incl_appl, incl_refl.
    + rewrite FL. symmetry. apply (parsed_prefix_stop good bad rest e B).
Qed.

Lemma parse_line_commas (line : str) :
  commas line <> 2%nat ->
  parse_line line = Raised (ValueError (UnpackMismatch (S (commas line)))).
Proof.
  intro N. unfold parse_line, unpack3.
  pose proof (split_length comma (strip line)) as SL.
  unfold strip in SL.
  rewrite (strip_by_count isspace line comma isspace_comma) in SL.
  fold (strip line) in SL. fold (commas line) in SL.
  destruct (split comma (strip line)) as [|a [|b [|c [|x y]]]]; simpl in SL;
    try (rewrite <- SL; reflexivity).
  exfalso. apply N. lia.
Qed.

(** Every load leaves a store with the invariants of a loaded store. *)
Lemma load_loaded_ok (exn_text : exn -> str) (filename : str) (w : World) :
  store_loaded_ok
    (historical_data (snd (load_data_from_file exn_text filename w))).
Proof.
  destruct (dict_lookup str_eqb (files w) filename) as [content|] eqn:L.
  - destruct (load_store exn_text filename w content L)
      as (lines & I & _ & _ & _ & H & _).
    rewrite H. apply records_of_lines_loaded_ok; [|apply store_loaded_ok_nil].
    apply Forall_forall. intros l Hl.
    apply (file_lines_shape content), I, Hl.
  - rewrite (load_missing exn_text filename w L). apply store_loaded_ok_nil.
Qed.

(** X2.  Whatever the file holds, and whether the load succeeds or shows an
    error dialog, [load_data_from_file] returns normally and leaves a store
    in which every date is a date of the calendar, every date has at least
    one diary, and no diary name has a comma, a line break or whitespace at
    its end; it never changes a file or the clock. *)
Theorem load_invariants (exn_text : exn -> str) (filename : str) (w : World) :
  let loaded := load_data_from_file exn_text filename w in
  fst loaded = Ok tt
  /\ store_loaded_ok (historical_data (snd loaded))
  /\ files (snd loaded) = files w
  /\ clock (snd loaded) = clock w.
Proof.
  cbv zeta. split; [|split; [apply load_loaded_ok|]].
  - destruct (dict_lookup str_eqb (files w) filename) as [content|] eqn:L.
    + destruct (load_store exn_text filename w content L)
        as (lines & _ & _ & _ & R & _). exact R.
    + rewrite (load_missing exn_text filename w L). reflexivity.
  - destruct (dict_lookup str_eqb (files w) filename) as [content|] eqn:L.
    + destruct (load_store exn_text filename w content L)
        as (lines & _ & _ & _ & _ & _ & F & C). split; assumption.
    + rewrite (load_missing exn_text filename w L). split; reflexivity.
Qed.


(** X4.  A line is read as a record only when it has exactly two commas:
    on a line with any other number [n] of commas, an empty line among
    them, the body of the loading loop raises the [ValueError] of an
    unpacking of [n + 1] fields into three names, and stores nothing. *)
Theorem load_line_needs_two_commas (line : str) (w : World) :
  commas line <> 2%nat ->
  load_line line w
  = (Raised (ValueError (UnpackMismatch (S (commas line)))), w).
Proof.
  intro N. rewrite load_line_spec, (parse_line_commas line N). reflexivity.
Qed.

(** ** Saved lines whatever the diary names *)

Lemma numeric_plain (s : str) :
  forallb numeric_char s = true -> forallb plain_char s = true.
Proof.
  intro H. rewrite forallb_forall in *. intros c Hc.
  destruct (numeric_char_plain c (H c Hc)) as (_ & N & R & _).
  unfold plain_char. rewrite N, R. reflexivity.
Qed.

(** The text of any date of the calendar consists of digits and minus
    signs, also when its year has fewer than four digits. *)
Lemma strftime_ymd_numeric_any (d : date) :
  date_ok d = true -> forallb numeric_char (strftime_ymd d) = true.
Proof.
  intro V. apply date_ok_spec in V. destruct V as (Hy & Hm & Hd).
  pose proof (days_in_month_le_31 (year d) (month d) Hm) as D31.
  destruct (str_of_nonneg_spec (year d) ltac:(lia)) as (_ & Y & _).
  destruct (month_text (month d) [] Hm) as [M _].
  pose proof (day_text (day d) ltac:(lia)) as D.
  unfold day_text_ok in D. apply andb_prop in D. destruct D as [D _].
  unfold strftime_ymd.
  rewrite !forallb_app. simpl forallb. rewrite !forallb_app. simpl forallb.
  rewrite (digits_numeric _ Y), (digits_numeric _ M), (digits_numeric _ D).
  reflexivity.
Qed.

Lemma record_body_plain (d : date) (count : Z) (diary : str) :
  date_ok d = true -> forallb plain_char diary = true ->
  forallb plain_char (record_body d count diary) = true.
Proof.
  intros V D. unfold record_body.
  rewrite forallb_app. simpl forallb. rewrite forallb_app. simpl forallb.
  rewrite (numeric_plain _ (strftime_ymd_numeric_any d V)).
  rewrite (numeric_plain _ (proj1 (py_str_int_numeric count))).
  rewrite D. reflexivity.
Qed.

Lemma plain_no_newline (s : str) :
  forallb plain_char s = true ->
  forallb (fun c => negb (Ascii.eqb c newline)) s = true.
Proof.
  intro H. rewrite forallb_forall in *. intros c Hc.
  specialize (H c Hc). unfold plain_char in H.
  apply andb_prop in H. apply H.
Qed.

Lemma plain_no_cr (s : str) :
  forallb plain_char s = true ->
  forallb (fun c => negb (Ascii.eqb c carriage_return)) s = true.
Proof.
  intro H. rewrite forallb_forall in *. intros c Hc.
  specialize (H c Hc). unfold plain_char in H.
  apply andb_prop in H. apply H.
Qed.

Lemma store_records_plain (h : Store) :
  store_dates_ok h -> diaries_plain h ->
  Forall
    (fun '(d, diary, _) => date_ok d = true /\ forallb plain_char diary = true)
    (store_records h).
Proof.
  unfold store_dates_ok, diaries_plain. intros SD DP.
  induction h as [|[d diaries] h IH]; simpl; [constructor|].
  inversion SD as [|? ? Hd SD']; inversion DP as [|? ? Hs DP']; subst.
  apply Forall_app. split; [|apply IH; assumption].
  simpl in Hd, Hs. clear -Hd Hs.
  induction Hs as [|[diary c] s H _ IH]; simpl; constructor;
    [split; assumption | exact IH].
Qed.

(** The lines of the saved text are the lines of the records, as long as
    no diary name has a line break. *)
Lemma file_lines_store_text_plain (h : Store) :
  store_dates_ok h -> diaries_plain h ->
  file_lines (store_text h)
  = map (fun '(d, diary, c) => record_line d c diary) (store_records h).
Proof.
  intros SD DP. pose proof (store_records_plain h SD DP) as OK.
  rewrite store_text_records. unfold file_lines.
  set (rs := store_records h) in *. clearbody rs.
  assert (E : flat_map (fun '(d, diary, c) => record_line d c diary) rs
              = flat_map (fun b => b ++ [newline])
                  (map (fun '(d, diary, c) => record_body d c diary) rs)).
  { clear. induction rs as [|[[d diary] c] rs IH]; simpl; [reflexivity|].
    rewrite IH, record_line_body. reflexivity. }
  rewrite E. rewrite universal_newlines_id.
  - rewrite lines_keepends_bodies.
    + rewrite map_map. apply map_ext. intros [[d diary] c].
      symmetry. apply record_line_body.
    + apply Forall_map. eapply Forall_impl; [|exact OK].
      intros [[d diary] c] [V D].
      apply plain_no_newline, record_body_plain; assumption.
  - clear E. induction OK as [|[[d diary] c] rs [V D] _ IH]; simpl; [reflexivity|].
    rewrite !forallb_app, IH.
    rewrite (plain_no_cr _ (record_body_plain d c diary V D)). reflexivity.
Qed.

Lemma store_lookup_record (h : Store) (d : date) (diary : str) (c : Z) :
  store_lookup h d diary = Some c -> In (d, diary, c) (store_records h).
Proof.
  unfold store_lookup, store_records.
  destruct (dict_lookup date_eqb h d) as [sub|] eqn:L; [|discriminate].
  intro S. apply (dict_lookup_in date_eqb date_eqb_eq) in L.
  apply (dict_lookup_in str_eqb str_eqb_eq) in S.
  apply in_flat_map. exists (d, sub). split; [exact L|].
  apply in_map_iff. exists (diary, c). split; [reflexivity | exact S].
Qed.

Lemma commas_record_line (d : date) (count : Z) (diary : str) :
  (2 + commas diary <= commas (record_line d count diary))%nat.
Proof.
  unfold commas, record_line.
  rewrite count_occ_app. simpl.
  destruct (ascii_dec comma comma) as [_|N]; [|congruence].
  rewrite count_occ_app. simpl.
  destruct (ascii_dec comma comma) as [_|N]; [|congruence].
  rewrite count_occ_app. lia.
Qed.

(** A diary name with a comma is the name of no record of a loaded store. *)
Lemma diaries_ok_no_comma (h : Store) (d : date) (diary : str) :
  diaries_ok h -> In comma diary -> store_lookup h d diary = None.
Proof.
  unfold diaries_ok. intros DO C.
  destruct (store_lookup h d diary) as [c|] eqn:L; [|reflexivity].
  exfalso. unfold store_lookup in L.
  destruct (dict_lookup date_eqb h d) as [sub|] eqn:LD; [|discriminate].
  apply (dict_lookup_in date_eqb date_eqb_eq) in LD.
  apply (dict_lookup_in str_eqb str_eqb_eq) in L.
  rewrite Forall_forall in DO. specialize (DO _ LD). simpl in DO.
  rewrite Forall_forall in DO. specialize (DO _ L). simpl in DO.
  destruct (diary_name_ok_spec diary DO) as (NC & _).
  rewrite forallb_forall in NC. specialize (NC comma C).
  rewrite Ascii.eqb_refl in NC. discriminate.
Qed.

(** X5.  A diary name with a comma is stored and saved, but the file that
    saving writes no longer loads: take a store whose dates are dates of
    the calendar and whose diary names have no line break, with a count for
    a diary name that has a comma.  After saving, the load shows the dialog
    "Failed to load data from file: ..." and the store it leaves has no
    count for that date and diary. *)
Theorem comma_in_diary_name_breaks_reload (exn_text : exn -> str) (path : str)
    (w : World) (d : date) (diary : str) (count : Z) :
  store_dates_ok (historical_data w) ->
  diaries_plain (historical_data w) ->
  store_lookup (historical_data w) d diary = Some count ->
  In comma diary ->
  exists (e : exn) (w1 w2 : World),
    save_data path w = (Ok tt, w1)
    /\ load_data_from_file exn_text path w1 = (Ok tt, w2)
    /\ dialogs w2
       = dialogs w
         ++ [showerror (lit "Error")
               (lit "Failed to load data from file: " ++ exn_text e)]
    /\ store_lookup (historical_data w2) d diary = None.
Proof.
  intros SD DP L C. set (h := historical_data w) in *.
  set (w1 := with_file path (store_text h) w).
  assert (F : dict_lookup str_eqb (files w1) path = Some (store_text h)).
  { unfold w1, with_file. simpl files.
    apply (dict_lookup_set_same str_eqb str_eqb_eq). }
  assert (B : In (record_line d count diary) (file_lines (store_text h))).
  { rewrite (file_lines_store_text_plain h SD DP).
    apply in_map_iff. exists (d, diary, count).
    split; [reflexivity | apply store_lookup_record, L]. }
  assert (N : commas (record_line d count diary) <> 2%nat).
  { pose proof (commas_record_line d count diary) as G.
    assert (0 < commas diary)%nat; [|lia].
    unfold commas. apply count_occ_In, C. }
  pose proof (load_loaded_ok exn_text path w1) as (_ & _ & DO & _).
  destruct (lines_parse_or_fail (file_lines (store_text h)))
    as [A|(good & bad & rest & e & FL & G & P)].
  - exfalso. destruct (A _ B) as [r R].
    rewrite (parse_line_commas _ N) in R. discriminate.
  - exists e, w1. eexists. split; [apply save_data_spec|].
    rewrite (load_malformed exn_text path w1 _ good bad rest e F FL G P) in *.
    split; [reflexivity|]. split; [reflexivity|].
    apply diaries_ok_no_comma; assumption.
Qed.

(** ** The weekday average that the callers read *)



(** ** The dialog of the weekday averages *)




Lemma show_weekday_averages_early (format_2f : Q -> str) (diary : str)
    (w : World) :
  toordinal (clock w) <= 180 ->
  show_weekday_averages format_2f diary w = (Raised OverflowError, w).
Proof.
  intro O. unfold show_weekday_averages, bind at 1.
  rewrite (weekday_averages_early diary w O). reflexivity.
Qed.



(** ** The steps of [submit_data] *)

Lemma check_article_count_ok (today : date) (diary : str) (count : Z)
    (w : World) (six : date) :
  date_sub_days (clock w) 180 = Some six ->
  exists r, check_article_count today diary count w = (Ok r, w).
Proof.
  intro E. unfold check_article_count, bind at 1.
  unfold calculate_weekday_averages, bind at 1, datetime_now_date.
  unfold bind at 1, lift. rewrite E. simpl of_option. cbv iota beta.
  unfold bind at 1, hd_items. unfold bind at 1.
  rewrite (for_each_pure (historical_data w) _ (weekday_step six diary));
    [|intros [d diaries] s _; apply weekday_body_pure].
  eexists. reflexivity.
Qed.

Lemma check_article_count_early (today : date) (diary : str) (count : Z)
    (w : World) :
  date_sub_days (clock w) 180 = None ->
  check_article_count today diary count w = (Raised OverflowError, w).
Proof.
  intro E. unfold check_article_count, bind at 1.
  unfold calculate_weekday_averages, bind at 1, datetime_now_date.
  unfold bind at 1, lift. rewrite E. reflexivity.
Qed.

Lemma sample_body_pure (six_months_ago : date) (diary : str)
    (d : date) (diaries : dict str Z) (six_months_data : list Z) (w : World) :
  (if date_ge d six_months_ago && dict_contains str_eqb diaries diary
   then
     count <- lift (getitem str_eqb diaries diary) ;;
     ret (six_months_data ++ [count])
   else ret six_months_data) w
  = (Ok (six_months_data ++ collected_sample six_months_ago diary [(d, diaries)]),
     w).
Proof.
  unfold collected_sample. simpl flat_map. rewrite app_nil_r.
  destruct (date_ge d six_months_ago); simpl; [|rewrite app_nil_r; reflexivity].
  unfold dict_contains, dict_get, bind, lift, getitem, ret.
  destruct (dict_lookup str_eqb diaries diary); simpl;
    [|rewrite app_nil_r]; reflexivity.
Qed.

Lemma six_months_sample_run (diary : str) (w : World) (six : date) :
  date_sub_days (clock w) 180 = Some six ->
  six_months_sample diary w
  = (Ok (collected_sample six diary (historical_data w)), w).
Proof.
  intro E. unfold six_months_sample, bind at 1, datetime_now_date.
  unfold bind at 1, lift. rewrite E. simpl of_option. cbv iota beta.
  unfold bind at 1, hd_items.
  rewrite (for_each_pure (historical_data w) _
             (fun acc item => acc ++ collected_sample six diary [item]));
    [|intros [d diaries] s _; apply sample_body_pure].
  f_equal. f_equal.
  assert (G : forall items acc,
            fold_left (fun acc item => acc ++ collected_sample six diary [item])
              items acc
            = acc ++ collected_sample six diary items).
  { induction items as [|item items IH]; intro acc; simpl.
    - rewrite app_nil_r. reflexivity.
    - rewrite IH. unfold collected_sample. simpl flat_map.
      rewrite app_nil_r, <- app_assoc. reflexivity. }
  apply (G (historical_data w) []).
Qed.


(** The analysis never raises: it shows nothing on an empty sample and one
    "Result" dialog otherwise. *)
Lemma secondary_analysis_total (data : list Z) (count : Z) (w : World) :
  (data = [] /\ secondary_analysis data count w = (Ok tt, w))
  \/ (data <> []
      /\ exists r : report,
           secondary_analysis data count w
           = (Ok tt, add_dialog (showinfo_result r) w)).
Proof.
  destruct data as [|x data]; [left; split; reflexivity|].
  right. split; [discriminate|].
  assert (P : (0 <? len (x :: data)) = true).
  { apply Z.ltb_lt. rewrite len_cons. pose proof (len_nonneg data). lia. }
  unfold secondary_analysis. rewrite P.
  destruct (Rgt_dec _ _) as [_|_].
  - destruct (calculate_interquartile_range (x :: data)) as [[q1 q3] iqr].
    destruct (Qltb (inject_Z count) q1); eexists; reflexivity.
  - destruct (most_frequent_first (x :: data) count ltac:(discriminate))
      as (m & CF & _).
    unfold bind, lift. rewrite CF.
    destruct (count =? m); eexists; reflexivity.
Qed.





(** ** [submit_data] *)








(** ** Loading what was saved *)






(** ** The statistics and the order and the scale of the sample *)

Lemma sum_perm (l l' : list Z) : Permutation l l' -> sum l = sum l'.
Proof.
  induction 1 as [|x l l' _ IH|x y l|l l' l'' _ IH1 _ IH2].
  - reflexivity.
  - rewrite !sum_cons, IH. reflexivity.
  - rewrite !sum_cons. lia.
  - congruence.
Qed.

Lemma len_perm {A} (l l' : list A) : Permutation l l' -> len l = len l'.
Proof. intro P. unfold len. f_equal. apply Permutation_length, P. Qed.


(** The coefficient of variation is a function of the number of values,
    of their sum and of the sum of their squares. *)
Lemma coefficient_of_variation_sums (a b : list Z) :
  len a = len b -> sum a = sum b ->
  sum (map (fun x => x * x) a) = sum (map (fun x => x * x) b) ->
  calculate_coefficient_of_variation a = calculate_coefficient_of_variation b.
Proof.
  intros L S Q.
  unfold calculate_coefficient_of_variation, statistics_stdev,
    statistics_variance, statistics_ss, statistics_mean.
  cbv zeta. rewrite L, S, Q. reflexivity.
Qed.

(** Two sorted lists with the same values are the same list. *)
Lemma sorted_perm_eq (l l' : list Z) :
  StronglySorted Z.le l -> StronglySorted Z.le l' -> Permutation l l' ->
  l = l'.
Proof.
  intro S. revert l'. induction S as [|a l S IH F]; intros l' S' P.
  - apply Permutation_nil in P. congruence.
  - destruct l' as [|b l'];
      [apply Permutation_sym, Permutation_nil in P; discriminate|].
    inversion S' as [|? ? S'' F']; subst.
    rewrite Forall_forall in F, F'.
    assert (E : a = b).
    { assert (Ia : In a (b :: l'))
        by (apply (Permutation_in _ P); simpl; auto).
      assert (Ib : In b (a :: l))
        by (apply (Permutation_in _ (Permutation_sym P)); simpl; auto).
      destruct Ia as [Ia|Ia]; [congruence|].
      destruct Ib as [Ib|Ib]; [congruence|].
      specialize (F b Ib). specialize (F' a Ia). lia. }
    subst b. f_equal. apply IH; [exact S''|].
    apply (Permutation_cons_inv P).
Qed.

Lemma np_sort_strongly_sorted (l : list Z) : StronglySorted Z.le (np_sort l).
Proof.
  apply Sorted_StronglySorted; [|apply np_sort_sorted].
  intros a b c. apply Z.le_trans.
Qed.

(** Sorting forgets the order of the sample. *)
Lemma np_sort_perm_eq (l l' : list Z) :
  Permutation l l' -> np_sort l = np_sort l'.
Proof.
  intro P. apply sorted_perm_eq; try apply np_sort_strongly_sorted.
  eapply perm_trans; [apply Permutation_sym, np_sort_perm|].
  eapply perm_trans; [exact P|]. apply np_sort_perm.
Qed.

(** X17.  The quartiles and the coefficient of variation do not depend on
    the order of the sample, that is on the order in which the dates came
    into the store: two samples with the same values, each as often, have
    the same interquartile range and the same coefficient of variation. *)
Theorem statistics_order_independent (data data' : list Z) :
  Permutation data data' ->
  calculate_interquartile_range data = calculate_interquartile_range data'
  /\ calculate_coefficient_of_variation data
     = calculate_coefficient_of_variation data'.
Proof.
  intro P. split.
  - unfold calculate_interquartile_range, np_percentile. cbv zeta.
    rewrite (np_sort_perm_eq data data' P), (len_perm data data' P).
    reflexivity.
  - apply coefficient_of_variation_sums.
    + apply len_perm, P.
    + apply sum_perm, P.
    + apply sum_perm, Permutation_map, P.
Qed.

(** The most frequent value does depend on the order when there is a tie. *)
Example mode_depends_on_order :
  Permutation [1; 2] [2; 1]
  /\ check_frequency_distribution [1; 2] 1 = Ok (true, 1)
  /\ check_frequency_distribution [2; 1] 1 = Ok (false, 2).
Proof. split; [apply perm_swap|split; reflexivity]. Qed.







(** ** The submitted count and its own average *)

Lemma flat_map_nil_inv {A B} (f : A -> list B) (l : list A) :
  flat_map f l = [] -> forall x, In x l -> f x = [].
Proof.
  induction l as [|a l IH]; simpl; intros H x []; subst.
  - apply app_eq_nil in H. apply H.
  - apply app_eq_nil in H. apply IH; [apply H | assumption].
Qed.









(** ** Whitespace around a line, and the lines that saving writes *)

(** X21.  Whitespace at the start and at the end of a line of the file is
    ignored: a line with one more whitespace character before it or after
    it, the line break among them, is read exactly as the line without
    it. *)
Theorem load_line_ignores_outer_whitespace (line : str) (c : ascii)
    (w : World) :
  isspace c = true ->
  load_line (c :: line) w = load_line line w
  /\ load_line (line ++ [c]) w = load_line line w.
Proof.
  intro H.
  assert (A : strip (c :: line) = strip line).
  { unfold strip, strip_by. simpl lstrip_by. rewrite H. reflexivity. }
  assert (B : strip (line ++ [c]) = strip line)
    by (apply strip_by_snoc_space, H).
  unfold load_line. rewrite A, B. split; reflexivity.
Qed.

Lemma dict_lookup_with_file_other (path p content : str) (w : World) :
  p <> path ->
  dict_lookup str_eqb (files (with_file path content w)) p
  = dict_lookup str_eqb (files w) p.
Proof.
  intro N. unfold with_file. simpl files.
  apply (dict_lookup_set_other str_eqb str_eqb_eq). exact N.
Qed.

(** X22.  Saving never fails and writes one file only: for a store whose
    dates are dates of the calendar and whose diary names have no line
    break, the file then has exactly one line per record, in the order of
    the store, each line being the date, the count and the diary name of
    its record separated by commas; every other file, the store and the
    dialogs are as before. *)
Theorem save_one_line_per_record (path : str) (w : World) :
  store_dates_ok (historical_data w) ->
  diaries_plain (historical_data w) ->
  exists (w1 : World) (content : str),
    save_data path w = (Ok tt, w1)
    /\ dict_lookup str_eqb (files w1) path = Some content
    /\ file_lines content
       = map (fun '(d, diary, c) => record_line d c diary)
           (store_records (historical_data w))
    /\ length (file_lines content) = record_count (historical_data w)
    /\ (forall p, p <> path ->
          dict_lookup str_eqb (files w1) p = dict_lookup str_eqb (files w) p)
    /\ historical_data w1 = historical_data w
    /\ dialogs w1 = dialogs w.
Proof.
  intros SD DP.
  exists (with_file path (store_text (historical_data w)) w),
    (store_text (historical_data w)).
  split; [apply save_data_spec|].
  split; [unfold with_file; simpl files;
          apply (dict_lookup_set_same str_eqb str_eqb_eq)|].
  rewrite (file_lines_store_text_plain _ SD DP).
  split; [reflexivity|]. split; [apply length_map|].
  split; [intros p N; apply dict_lookup_with_file_other, N|].
  split; reflexivity.
Qed.

(** ** The only exception of [submit_data] *)

Lemma week_body_outcome (d : date) (diary : str) (i : Z) (acc : dict date Z)
    (w : World) :
  exists r : result (dict date Z),
    (day_i <- lift (of_option OverflowError (date_sub_days d i)) ;;
     present <- hd_contains day_i ;;
     v <- (if present
           then sub <- hd_getitem day_i ;; ret (dict_get str_eqb sub diary 0)
           else ret 0) ;;
     ret (dict_set date_eqb acc day_i v)) w = (r, w)
    /\ ((exists acc', r = Ok acc') \/ r = Raised OverflowError).
Proof.
  unfold bind at 1, lift.
  destruct (date_sub_days d i) as [day_i|]; [|eexists; split; [reflexivity|auto]].
  simpl of_option. cbv iota beta.
  unfold bind at 1, hd_contains.
  destruct (dict_contains date_eqb (historical_data w) day_i) eqn:C.
  - unfold bind, hd_getitem, ret. unfold dict_contains in C.
    destruct (dict_lookup date_eqb (historical_data w) day_i);
      [|discriminate].
    eexists. split; [reflexivity|eauto].
  - unfold bind, ret. eexists. split; [reflexivity|eauto].
Qed.

(** The summary of the last week returns its rows or raises
    [OverflowError], and nothing else. *)
Lemma week_summary_outcome (d : date) (diary : str) (w : World) :
  exists r : result (dict date Z),
    get_last_week_summary d diary w = (r, w)
    /\ ((exists rows, r = Ok rows) \/ r = Raised OverflowError).
Proof.
  unfold get_last_week_summary.
  generalize (map Z.of_nat (seq 0 7)) as offsets.
  generalize (@nil (date * Z)) as acc.
  intros acc offsets. revert acc.
  induction offsets as [|i offsets IH]; intro acc.
  - eexists. split; [reflexivity|eauto].
  - simpl for_each. unfold bind at 1.
    destruct (week_body_outcome d diary i acc w) as (r & E & [[acc' ->]| ->]);
      rewrite E.
    + cbv beta iota. apply IH.
    + eexists. split; [reflexivity|auto].
Qed.

Lemma submit_data_outcome (data_file : str) (d : date) (diary text : str)
    (w : World) :
  exists (r : result unit) (w' : World),
    submit_data data_file d diary text w = (r, w')
    /\ (r = Ok tt \/ r = Raised OverflowError)
    /\ (r = Raised OverflowError -> files w' = files w /\ stdout w' = stdout w).
Proof.
  unfold submit_data.
  destruct (py_int text) as [count|] eqn:P;
    [|eexists _, _; split; [reflexivity|]; split; [auto | discriminate]].
  destruct diary as [|c diary];
    [eexists _, _; split; [reflexivity|]; split; [auto | discriminate]|].
  set (name := c :: diary).
  unfold bind at 1. rewrite add_article_count_world.
  set (w1 := add_dialog _ _).
  destruct (date_sub_days (clock w1) 180) as [six|] eqn:E.
  - destruct (check_article_count_ok d name count w1 six E) as [r C].
    unfold bind at 1. rewrite C.
    unfold bind at 1. rewrite (six_months_sample_run name w1 six E).
    unfold bind at 1.
    assert (S : exists w2,
              secondary_analysis
                (collected_sample six name (historical_data w1)) count w1
              = (Ok tt, w2)
              /\ files w2 = files w /\ stdout w2 = stdout w).
    { destruct (secondary_analysis_total
                  (collected_sample six name (historical_data w1)) count w1)
        as [[_ S]|[_ [rep S]]]; rewrite S; eexists; repeat split. }
    destruct S as (w2 & S & F & O). rewrite S.
    unfold bind at 1.
    destruct (week_summary_outcome d name w2) as (r' & W & [[rows ->]| ->]);
      rewrite W.
    + unfold bind at 1, messagebox. unfold bind at 1. rewrite save_data_spec.
      eexists _, _. split; [reflexivity|]. split; [auto | discriminate].
    + eexists _, _. split; [reflexivity|]. split; [auto|].
      intros _. split; assumption.
  - unfold bind at 1. rewrite (check_article_count_early d name count w1 E).
    eexists _, _. split; [reflexivity|]. split; [auto|].
    intros _. split; reflexivity.
Qed.

(** X23.  The guards of [submit_data] leave it one exception only: whatever
    the input and the store, [submit_data] returns normally or raises
    [OverflowError]; the [IndexError] of the most frequent value of an empty
    sample and the [KeyError] of a missing diary cannot occur.  And it
    writes the file only at its end: when it raises, the files and the
    printed lines are as they were. *)
Theorem submit_data_only_overflow (data_file : str) (d : date)
    (diary text : str) (w : World) :
  let run := submit_data data_file d diary text w in
  (fst run = Ok tt \/ fst run = Raised OverflowError)
  /\ (fst run = Raised OverflowError ->
      files (snd run) = files w /\ stdout (snd run) = stdout w).
Proof.
  cbv zeta.
  destruct (submit_data_outcome data_file d diary text w)
    as (r & w' & E & R & F).
  rewrite E. split; [exact R | exact F].
Qed.

(** ** The further properties on examples *)


(** X4 on a line with one comma. *)
Lemma load_line_needs_two_commas_witness :
  load_line (lit "2024-01-01,5") quiet_world
  = (Raised (ValueError (UnpackMismatch 2)), quiet_world).
Proof.
  apply (load_line_needs_two_commas (lit "2024-01-01,5") quiet_world).
  vm_compute. discriminate.
Defined.

(** X5 on a store with the diary name "A,B". *)
Lemma comma_in_diary_name_breaks_reload_witness :
  exists (e : exn) (w1 w2 : World),
    save_data (lit "data.txt") comma_world = (Ok tt, w1)
    /\ load_data_from_file (fun _ => lit "ValueError") (lit "data.txt") w1
       = (Ok tt, w2)
    /\ dialogs w2
       = dialogs comma_world
         ++ [showerror (lit "Error")
               (lit "Failed to load data from file: "
                ++ (fun _ : exn => lit "ValueError") e)]
    /\ store_lookup (historical_data w2) (mkdate 2024 1 1) (lit "A,B") = None.
Proof.
  apply (comma_in_diary_name_breaks_reload (fun _ => lit "ValueError")
           (lit "data.txt") comma_world (mkdate 2024 1 1) (lit "A,B") 5).
  - repeat constructor.
  - repeat constructor.
  - reflexivity.
  - simpl. auto.
Defined.











(** X17 on a sample and its reverse. *)
Lemma statistics_order_independent_witness :
  calculate_interquartile_range [1; 2; 10; 20]
  = calculate_interquartile_range [20; 10; 2; 1]
  /\ calculate_coefficient_of_variation [1; 2; 10; 20]
     = calculate_coefficient_of_variation [20; 10; 2; 1].
Proof.
  apply (statistics_order_independent [1; 2; 10; 20] [20; 10; 2; 1]).
  apply (Permutation_rev [1; 2; 10; 20]).
Defined.




(** X21 on a line with a space before it or a tabulation after it. *)
Lemma load_line_ignores_outer_whitespace_witness :
  load_line (" "%char :: lit "2024-01-01,5,X") quiet_world
  = load_line (lit "2024-01-01,5,X") quiet_world
  /\ load_line (lit "2024-01-01,5,X" ++ [" "%char]) quiet_world
     = load_line (lit "2024-01-01,5,X") quiet_world.
Proof.
  apply (load_line_ignores_outer_whitespace (lit "2024-01-01,5,X") " "%char
           quiet_world).
  reflexivity.
Defined.

(** X22 on the sample world. *)
Lemma save_one_line_per_record_witness :
  exists (w1 : World) (content : str),
    save_data (lit "data.txt") sample_world = (Ok tt, w1)
    /\ dict_lookup str_eqb (files w1) (lit "data.txt") = Some content
    /\ file_lines content
       = map (fun '(d, diary, c) => record_line d c diary)
           (store_records (historical_data sample_world))
    /\ length (file_lines content) = record_count (historical_data sample_world)
    /\ (forall p, p <> lit "data.txt" ->
          dict_lookup str_eqb (files w1) p
          = dict_lookup str_eqb (files sample_world) p)
    /\ historical_data w1 = historical_data sample_world
    /\ dialogs w1 = dialogs sample_world.
Proof.
  apply (save_one_line_per_record (lit "data.txt") sample_world).
  - repeat constructor.
  - repeat constructor.
Defined.
